(** * Order lifecycle and cost computation of the bookstore backend

    A shallow embedding of [src/models/order.js],
    [src/controllers/orderController.js] and the pagination helper, with the
    properties of the order specification stated and proved over it.

    Modelling conventions.
    - A JavaScript [Number] that holds money is an exact rational ([Q]); a
      [Number] that counts things (stock, quantity, page numbers, epoch
      milliseconds) is an integer ([Z]).  Rounding error of binary floating
      point, and the exponent notation [Number.prototype.toString] switches
      to from 1e21 on, are outside the model.
    - A Mongoose document is a record; a schema method is a computation in a
      state monad over the document ([Method]), because the methods assign
      to [this].
    - A controller is a computation over the database ([Handler]) that can
      answer early ([Return]) or throw ([Throw]); the [try]/[catch] of every
      controller turns a throw into the INTERNAL_SERVER_ERROR answer.
      Writes made before a throw stay made: there is no transaction. *)

From Stdlib Require Import ZArith QArith Qround Qabs Lia Lqa Ascii.
From stdpp Require Import gmap strings list fin_maps sorting.

Local Open Scope Z_scope.

(** ** Numbers *)

(** [x.toFixed(2)] yields a decimal string with two fraction digits: the
    sign, and the digits, which read as a whole number of hundredths [n].
    ECMAScript: if [x < 0] the sign is "-" and [x] becomes [-x]; then [n] is
    the integer for which [n / 100 - x] is closest to zero, the larger one
    if there are two. *)
Record Fixed2 := mkFixed2 { f2_negative : bool; f2_hundredths : Z }.

Definition toFixed2 (x : Q) : Fixed2 :=
  if Qle_bool 0 x
  then mkFixed2 false (Qfloor (x * 100 + (1 # 2)))
  else mkFixed2 true (Qfloor ((- x) * 100 + (1 # 2))).

(** [parseFloat] of such a string. *)
Definition parseFloat (s : Fixed2) : Q :=
  if f2_negative s then - (f2_hundredths s # 100) else f2_hundredths s # 100.

(** ** Documents *)

Definition BookId := positive.
Definition UserId := positive.
Definition OrderId := positive.

Inductive PaymentStatus := PayPending | PayCompleted | PayFailed | PayRefunded.

Inductive OrderStatus :=
  Pending | Confirmed | Processing | Shipped | Delivered | Cancelled.

#[global] Instance PaymentStatus_eq_dec : EqDecision PaymentStatus.
Proof. solve_decision. Defined.
#[global] Instance OrderStatus_eq_dec : EqDecision OrderStatus.
Proof. solve_decision. Defined.

(** orderItemSchema *)
Record OrderItem := mkOrderItem {
  oi_bookId : BookId;
  oi_title : string;
  oi_author : string;
  oi_quantity : Z;
  oi_price : Q;
  oi_subtotal : Q;
}.

(** shippingAddressSchema; a field the request body leaves out is [None]. *)
Record ShippingAddress := mkShippingAddress {
  fullName : option string;
  phoneNumber : option string;
  address : option string;
  city : option string;
  state : option string;
  zipCode : option string;
  country : option string;
}.

(** orderSchema, with the [createdAt] timestamp Mongoose adds ([None] until
    the first save).  The [_id] of a document is its key in the collection
    and travels beside the record.  The [updatedAt] timestamp, which Mongoose
    rewrites on every save and no code reads, is left out. *)
Record Order := mkOrder {
  userId : UserId;
  orderNumber : string;
  items : list OrderItem;
  shippingAddress : ShippingAddress;
  paymentMethod : string;
  paymentStatus : PaymentStatus;
  orderStatus : OrderStatus;
  subtotal : Q;
  tax : Q;
  shippingCost : Q;
  total : Q;
  notes : option string;
  cancelledAt : option Z;
  deliveredAt : option Z;
  createdAt : option Z;
}.

(** Assignments to one field of [this]. *)
Definition set_subtotal (v : Q) (o : Order) : Order :=
  mkOrder (userId o) (orderNumber o) (items o) (shippingAddress o)
    (paymentMethod o) (paymentStatus o) (orderStatus o)
    v (tax o) (shippingCost o) (total o)
    (notes o) (cancelledAt o) (deliveredAt o) (createdAt o).

Definition set_tax (v : Q) (o : Order) : Order :=
  mkOrder (userId o) (orderNumber o) (items o) (shippingAddress o)
    (paymentMethod o) (paymentStatus o) (orderStatus o)
    (subtotal o) v (shippingCost o) (total o)
    (notes o) (cancelledAt o) (deliveredAt o) (createdAt o).

Definition set_shippingCost (v : Q) (o : Order) : Order :=
  mkOrder (userId o) (orderNumber o) (items o) (shippingAddress o)
    (paymentMethod o) (paymentStatus o) (orderStatus o)
    (subtotal o) (tax o) v (total o)
    (notes o) (cancelledAt o) (deliveredAt o) (createdAt o).

Definition set_total (v : Q) (o : Order) : Order :=
  mkOrder (userId o) (orderNumber o) (items o) (shippingAddress o)
    (paymentMethod o) (paymentStatus o) (orderStatus o)
    (subtotal o) (tax o) (shippingCost o) v
    (notes o) (cancelledAt o) (deliveredAt o) (createdAt o).

Definition set_orderStatus (v : OrderStatus) (o : Order) : Order :=
  mkOrder (userId o) (orderNumber o) (items o) (shippingAddress o)
    (paymentMethod o) (paymentStatus o) v
    (subtotal o) (tax o) (shippingCost o) (total o)
    (notes o) (cancelledAt o) (deliveredAt o) (createdAt o).

Definition set_cancelledAt (v : option Z) (o : Order) : Order :=
  mkOrder (userId o) (orderNumber o) (items o) (shippingAddress o)
    (paymentMethod o) (paymentStatus o) (orderStatus o)
    (subtotal o) (tax o) (shippingCost o) (total o)
    (notes o) v (deliveredAt o) (createdAt o).

Definition set_deliveredAt (v : option Z) (o : Order) : Order :=
  mkOrder (userId o) (orderNumber o) (items o) (shippingAddress o)
    (paymentMethod o) (paymentStatus o) (orderStatus o)
    (subtotal o) (tax o) (shippingCost o) (total o)
    (notes o) (cancelledAt o) v (createdAt o).

Definition set_createdAt (v : option Z) (o : Order) : Order :=
  mkOrder (userId o) (orderNumber o) (items o) (shippingAddress o)
    (paymentMethod o) (paymentStatus o) (orderStatus o)
    (subtotal o) (tax o) (shippingCost o) (total o)
    (notes o) (cancelledAt o) (deliveredAt o) v.

(** ** Schema methods: a state monad over the document *)

Definition Method (A : Type) : Type := Order -> A * Order.

#[global] Instance Method_ret : MRet Method := fun A a this => (a, this).

#[global] Instance Method_bind : MBind Method :=
  fun A B k m this => let (a, this') := m this in k a this'.

(** Reading a field of [this], and assigning to one. *)
Definition read {A} (f : Order -> A) : Method A := fun this => (f this, this).
Definition assign (f : Order -> Order) : Method unit := fun this => (tt, f this).

(** [this.items.reduce((acc, item) => acc + item.subtotal, 0)] *)
Definition reduce_subtotals (l : list OrderItem) : Q :=
  fold_left (fun acc item => acc + oi_subtotal item)%Q l 0%Q.

Definition calculateSubtotal : Method Q :=
  its ← read items;
  assign (set_subtotal (reduce_subtotals its));;
  read subtotal.

Definition default_taxRate : Q := 8 # 100.
Definition default_freeShippingThreshold : Q := 50 # 1.
Definition flatShippingFee : Q := 199 # 1.

(** [calculateTax(taxRate = 0.08)]; an argument that is left out is [None]. *)
Definition calculateTax (taxRate : option Q) : Method Q :=
  let taxRate := default default_taxRate taxRate in
  s ← read subtotal;
  assign (set_tax (parseFloat (toFixed2 (s * taxRate))));;
  read tax.

(** [calculateShippingCost(freeShippingThreshold = 50)] *)
Definition calculateShippingCost (freeShippingThreshold : option Q) : Method Q :=
  let freeShippingThreshold :=
    default default_freeShippingThreshold freeShippingThreshold in
  s ← read subtotal;
  assign (set_shippingCost
            (if Qle_bool freeShippingThreshold s then 0%Q else flatShippingFee));;
  read shippingCost.

Definition calculateTotal : Method Q :=
  s ← read subtotal;
  t ← read tax;
  c ← read shippingCost;
  assign (set_total (parseFloat (toFixed2 (s + t + c))));;
  read total.

(** The [options] argument of [calculateOrderCosts]; a key that is left out
    is [None] and takes its default in the destructuring. *)
Record CostOptions := mkCostOptions {
  opt_taxRate : option Q;
  opt_freeShippingThreshold : option Q;
}.

Definition no_options : CostOptions := mkCostOptions None None.

(** What [calculateOrderCosts] returns. *)
Record Costs := mkCosts {
  c_subtotal : Q;
  c_tax : Q;
  c_shippingCost : Q;
  c_total : Q;
}.

Definition calculateOrderCosts (options : CostOptions) : Method Costs :=
  let taxRate := default default_taxRate (opt_taxRate options) in
  let freeShippingThreshold :=
    default default_freeShippingThreshold (opt_freeShippingThreshold options) in
  calculateSubtotal;;
  calculateTax (Some taxRate);;
  calculateShippingCost (Some freeShippingThreshold);;
  calculateTotal;;
  s ← read subtotal;
  t ← read tax;
  c ← read shippingCost;
  tot ← read total;
  mret (mkCosts s t c tot).

Definition canBeCancelled : Method bool :=
  s ← read orderStatus;
  mret (negb (bool_decide (s ∈ [Delivered; Cancelled]))).

(** 30 days in milliseconds *)
Definition refundWindow : Z := 30 * 24 * 60 * 60 * 1000.

(** [now] is [Date.now()].  [createdAt.getTime()] throws on a document that
    was never saved; the method is called on stored orders, and the absent
    case answers [None]. *)
Definition canBeRefunded (now : Z) : Method (option bool) :=
  created ← read createdAt;
  match created with
  | None => mret None
  | Some created =>
      let orderAge := now - created in
      s ← read orderStatus;
      p ← read paymentStatus;
      mret (Some (bool_decide (s = Delivered) &&
                  bool_decide (p = PayCompleted) &&
                  (orderAge <=? refundWindow)))
  end.

(** [orderSchema.pre('save', ...)] *)
Definition preSave : Method unit :=
  its ← read items;
  s ← read subtotal;
  if (0 <? Z.of_nat (length its)) && Qeq_bool s 0
  then calculateOrderCosts no_options;; mret tt
  else mret tt.

(** ** Schema validation

    The validators the schema declares ([required], [min], [enum],
    [maxlength]); Mongoose runs them on every [save], before the [pre('save')]
    hooks of the schema.  [required] rejects an absent and an empty string.
    ([unique] is an index option, not a validator.) *)

Definition required (s : option string) : bool :=
  match s with
  | Some s => negb (String.eqb s "")
  | None => false
  end.

Definition paymentMethods : list string :=
  ["credit_card"; "debit_card"; "paypal"; "cash_on_delivery"]%string.

Definition validateItem (item : OrderItem) : bool :=
  required (Some (oi_title item)) &&
  required (Some (oi_author item)) &&
  (1 <=? oi_quantity item) &&
  Qle_bool 0 (oi_price item).

Definition validateAddress (a : ShippingAddress) : bool :=
  required (fullName a) && required (phoneNumber a) && required (address a) &&
  required (city a) && required (state a) && required (zipCode a) &&
  required (country a).

Definition validate (o : Order) : bool :=
  required (Some (orderNumber o)) &&
  forallb validateItem (items o) &&
  validateAddress (shippingAddress o) &&
  bool_decide (paymentMethod o ∈ paymentMethods) &&
  Qle_bool 0 (subtotal o) && Qle_bool 0 (tax o) &&
  Qle_bool 0 (shippingCost o) && Qle_bool 0 (total o) &&
  match notes o with
  | Some n => (Z.of_nat (String.length n) <=? 500)
  | None => true
  end.

(** ** The database *)

(** Modelled from the spec: the Book model ([src/models/book.js] is not among
    the sources).  "Book: identity, title, author, price (>= 0), stock
    (integer >= 0)"; the identity is the key of the collection. *)
Record Book := mkBook {
  b_title : string;
  b_author : string;
  b_price : Q;
  b_stock : Z;
}.

(** Modelled from the spec: the Cart model ([src/models/cart.js] is not among
    the sources).  "CartLine: references a Book, quantity, price captured at
    add time"; "Cart: owned exclusively by one user; ordered sequence of
    CartLine; derived total". *)
Record CartItem := mkCartItem {
  ci_bookId : BookId;
  ci_quantity : Z;
  ci_price : Q;
}.

Record Cart := mkCart {
  cart_items : list CartItem;
  cart_total : Q;
}.

Record Database := mkDatabase {
  books : gmap BookId Book;
  carts : gmap UserId Cart;
  orders : gmap OrderId Order;
}.

Definition set_books (f : gmap BookId Book -> gmap BookId Book) (db : Database) :=
  mkDatabase (f (books db)) (carts db) (orders db).
Definition set_carts (f : gmap UserId Cart -> gmap UserId Cart) (db : Database) :=
  mkDatabase (books db) (f (carts db)) (orders db).
Definition set_orders (f : gmap OrderId Order -> gmap OrderId Order) (db : Database) :=
  mkDatabase (books db) (carts db) (f (orders db)).

(** ** Controllers: state, early answers and exceptions *)

Inductive ErrorCode :=
  | MISSING_FIELDS | EMPTY_CART | BOOK_NOT_FOUND | INSUFFICIENT_STOCK
  | ORDER_NOT_FOUND | INVALID_ORDER_STATUS | INVALID_STATUS
  | INTERNAL_SERVER_ERROR.

(** [res.status(n).json(...)]: the HTTP status with either the order or the
    error code of the body. *)
Inductive Response :=
  | OrderResponse (status : Z) (orderId : OrderId) (order : Order)
  | ErrorResponse (status : Z) (code : ErrorCode).

Inductive Outcome (A : Type) :=
  | Next (a : A)
  | Return (r : Response)
  | Throw.
Arguments Next {A} a.
Arguments Return {A} r.
Arguments Throw {A}.

Definition Handler (A : Type) : Type := Database -> Outcome A * Database.

#[global] Instance Handler_ret : MRet Handler := fun A a db => (Next a, db).

#[global] Instance Handler_bind : MBind Handler :=
  fun A B k m db =>
    match m db with
    | (Next a, db') => k a db'
    | (Return r, db') => (Return r, db')
    | (Throw, db') => (Throw, db')
    end.

(** [return res.status(..).json(..)] in the middle of a controller. *)
Definition reply {A} (r : Response) : Handler A := fun db => (Return r, db).

Definition throw {A} : Handler A := fun db => (Throw, db).

(** Property access on a value that may be [null]; it throws a TypeError
    on [null]. *)
Definition deref {A} (x : option A) : Handler A :=
  match x with
  | Some a => mret a
  | None => throw
  end.

(** [for (const x of l) { body }] *)
Fixpoint forEach {A} (l : list A) (body : A -> Handler unit) : Handler unit :=
  match l with
  | [] => mret tt
  | x :: l' => body x;; forEach l' body
  end.

(** [l.map(f)] where [f] may throw. *)
Fixpoint mapH {A B} (f : A -> Handler B) (l : list A) : Handler (list B) :=
  match l with
  | [] => mret []
  | x :: l' => y ← f x; ys ← mapH f l'; mret (y :: ys)
  end.

(** The [try { ... } catch (error) { ... }] every controller is wrapped in. *)
Definition tryCatch (h : Handler Response) (db : Database) : Response * Database :=
  match h db with
  | (Next r, db') => (r, db')
  | (Return r, db') => (r, db')
  | (Throw, db') => (ErrorResponse 500 INTERNAL_SERVER_ERROR, db')
  end.

(** What a request reads from outside the database: the clock, and the two
    base-36 strings [generateOrderNumber] builds the order number from. *)
Record Runtime := mkRuntime {
  now : Z;
  timestamp36 : string;
  random36 : string;
}.

Definition generateOrderNumber (rt : Runtime) : string :=
  ("ORD-" +:+ timestamp36 rt +:+ "-" +:+ random36 rt)%string.

(** *** Queries *)

(** A cart line after [populate('items.bookId')]: the reference is replaced
    by the book it names, with its [_id], or by [null] when there is no such
    book. *)
Record PopulatedItem := mkPopulatedItem {
  pi_bookId : option (BookId * Book);
  pi_quantity : Z;
  pi_price : Q;
}.

Definition populate (bs : gmap BookId Book) (item : CartItem) : PopulatedItem :=
  mkPopulatedItem ((fun b => (ci_bookId item, b)) <$> bs !! ci_bookId item)
                  (ci_quantity item) (ci_price item).

(** [Cart.findOne({ userId }).populate('items.bookId')]; the answer is the
    item list of the cart. *)
Definition Cart_findOne_populate (uid : UserId) : Handler (option (list PopulatedItem)) :=
  fun db => (Next ((fun c => populate (books db) <$> cart_items c) <$> carts db !! uid), db).

Definition Book_findById (id : BookId) : Handler (option Book) :=
  fun db => (Next (books db !! id), db).

(** [Book.findByIdAndUpdate(id, { $inc: { stock: n } })]; no book, no update. *)
Definition incStock (n : Z) (b : Book) : Book :=
  mkBook (b_title b) (b_author b) (b_price b) (b_stock b + n).

Definition Book_findByIdAndUpdate_inc (id : BookId) (n : Z) : Handler unit :=
  fun db => (Next tt, set_books (alter (incStock n) id) db).

(** [Order.findOne({ _id: orderId, userId })] *)
Definition Order_findOne (orderId : OrderId) (uid : UserId) : Handler (option Order) :=
  fun db => (Next (match orders db !! orderId with
                   | Some o => if decide (userId o = uid) then Some o else None
                   | None => None
                   end), db).

Definition Order_findById (orderId : OrderId) : Handler (option Order) :=
  fun db => (Next (orders db !! orderId), db).

(** The [_id] of a new document: an identifier no stored order has. *)
Definition newObjectId : Handler OrderId :=
  fun db => (Next (fresh (dom (orders db))), db).

(** [timestamps: true]: a document saved for the first time gets its
    [createdAt]. *)
Definition stampCreatedAt (rt : Runtime) (order : Order) : Order :=
  match createdAt order with
  | None => set_createdAt (Some (now rt)) order
  | Some _ => order
  end.

(** [order.save()]: validation (a failure rejects the promise), then the
    [pre('save')] hook, then the [createdAt] timestamp of a new document,
    then the write. *)
Definition Order_save (rt : Runtime) (orderId : OrderId) (order : Order)
  : Handler Order :=
  if validate order then
    let order := (preSave order).2 in
    let order := stampCreatedAt rt order in
    fun db => (Next order, set_orders <[orderId := order]> db)
  else throw.

(** [cart.items = []; cart.total = 0; cart.save()] *)
Definition Cart_save (uid : UserId) (c : Cart) : Handler unit :=
  fun db => (Next tt, set_carts <[uid := c]> db).

(** *** createOrder *)

Record CreateOrderRequest := mkCreateOrderRequest {
  req_userId : UserId;
  req_shippingAddress : option ShippingAddress;
  req_paymentMethod : option string;
  req_notes : option string;
}.

(** [!paymentMethod] holds for an absent and for an empty string. *)
Definition truthy (s : option string) : bool := required s.

(** Casting the request's address to the sub-schema sets the default of
    [country]. *)
Definition castShippingAddress (a : ShippingAddress) : ShippingAddress :=
  mkShippingAddress (fullName a) (phoneNumber a) (address a) (city a)
    (state a) (zipCode a) (Some (default "USA"%string (country a))).

Definition orderItemOf (item : PopulatedItem) : Handler OrderItem :=
  b ← deref (pi_bookId item);
  mret (mkOrderItem b.1 (b_title b.2) (b_author b.2) (pi_quantity item)
          (pi_price item) (pi_price item * inject_Z (pi_quantity item))%Q).

(** The body of the loop "Validate stock availability for all items". *)
Definition checkStock (item : PopulatedItem) : Handler unit :=
  b ← deref (pi_bookId item);
  book ← Book_findById b.1;
  match book with
  | None => reply (ErrorResponse 404 BOOK_NOT_FOUND)
  | Some book =>
    if (b_stock book <? pi_quantity item)
    then reply (ErrorResponse 400 INSUFFICIENT_STOCK)
    else mret tt
  end.

(** The body of the loop "Update book stock". *)
Definition takeStock (item : PopulatedItem) : Handler unit :=
  b ← deref (pi_bookId item);
  Book_findByIdAndUpdate_inc b.1 (- pi_quantity item).

(** The order document [new Order({ ... })] builds, all costs at their
    schema default 0. *)
Definition newOrder (rt : Runtime) (req : CreateOrderRequest)
    (orderItems : list OrderItem) (shippingAddress : ShippingAddress)
    (paymentMethod : string) : Order :=
  mkOrder (req_userId req) (generateOrderNumber rt) orderItems
    (castShippingAddress shippingAddress) paymentMethod
    (if String.eqb paymentMethod "cash_on_delivery"
     then PayPending else PayCompleted)
    Confirmed
    0%Q 0%Q 0%Q 0%Q
    (req_notes req) None None None.

Definition createOrder_body (rt : Runtime) (req : CreateOrderRequest)
  : Handler Response :=
  let uid := req_userId req in
  match req_shippingAddress req, req_paymentMethod req with
  | Some shippingAddress, Some paymentMethod =>
    if negb (truthy (Some paymentMethod))
    then reply (ErrorResponse 400 MISSING_FIELDS)
    else
      cart ← Cart_findOne_populate uid;
      match cart with
      | None => reply (ErrorResponse 400 EMPTY_CART)
      | Some cart_items =>
        if (Z.of_nat (length cart_items) =? 0)
        then reply (ErrorResponse 400 EMPTY_CART)
        else
          forEach cart_items checkStock;;
          orderItems ← mapH orderItemOf cart_items;
          oid ← newObjectId;
          let order :=
            newOrder rt req orderItems shippingAddress paymentMethod in
          let order := (calculateOrderCosts no_options order).2 in
          order ← Order_save rt oid order;
          forEach cart_items takeStock;;
          Cart_save uid (mkCart [] 0%Q);;
          mret (OrderResponse 201 oid order)
      end
  | _, _ => reply (ErrorResponse 400 MISSING_FIELDS)
  end.

Definition createOrder (rt : Runtime) (req : CreateOrderRequest)
  : Database -> Response * Database :=
  tryCatch (createOrder_body rt req).

(** *** cancelOrder *)

(** The body of the loop "Restore book stock". *)
Definition restoreStock (item : OrderItem) : Handler unit :=
  Book_findByIdAndUpdate_inc (oi_bookId item) (oi_quantity item).

(** [orderId] is the identifier in the route, taken to be well formed. *)
Definition cancelOrder_body (rt : Runtime) (uid : UserId) (orderId : OrderId)
  : Handler Response :=
  order ← Order_findOne orderId uid;
  match order with
  | None => reply (ErrorResponse 404 ORDER_NOT_FOUND)
  | Some order =>
    if bool_decide (orderStatus order ∈ [Delivered; Cancelled])
    then reply (ErrorResponse 400 INVALID_ORDER_STATUS)
    else
      let order := set_orderStatus Cancelled order in
      let order := set_cancelledAt (Some (now rt)) order in
      order ← Order_save rt orderId order;
      forEach (items order) restoreStock;;
      mret (OrderResponse 200 orderId order)
  end.

Definition cancelOrder (rt : Runtime) (uid : UserId) (orderId : OrderId)
  : Database -> Response * Database :=
  tryCatch (cancelOrder_body rt uid orderId).

(** *** updateOrderStatus *)

Definition validStatuses : list string :=
  ["pending"; "confirmed"; "processing"; "shipped"; "delivered"; "cancelled"]%string.

(** The enum value a status string of the request body denotes; it denotes
    one exactly when [validStatuses.includes] it ([status_of_string_valid]). *)
Definition status_of_string (s : string) : option OrderStatus :=
  if String.eqb s "pending" then Some Pending
  else if String.eqb s "confirmed" then Some Confirmed
  else if String.eqb s "processing" then Some Processing
  else if String.eqb s "shipped" then Some Shipped
  else if String.eqb s "delivered" then Some Delivered
  else if String.eqb s "cancelled" then Some Cancelled
  else None.

(** The [orderStatus] of the request body is [None] when the body has none. *)
Definition updateOrderStatus_body (rt : Runtime) (orderId : OrderId)
    (orderStatus : option string) : Handler Response :=
  match orderStatus ≫= status_of_string with
  | None => reply (ErrorResponse 400 INVALID_STATUS)
  | Some newStatus =>
    order ← Order_findById orderId;
    match order with
    | None => reply (ErrorResponse 404 ORDER_NOT_FOUND)
    | Some order =>
      let order := set_orderStatus newStatus order in
      let order :=
        if decide (newStatus = Delivered)
        then set_deliveredAt (Some (now rt)) order
        else order in
      order ← Order_save rt orderId order;
      mret (OrderResponse 200 orderId order)
    end
  end.

Definition updateOrderStatus (rt : Runtime) (orderId : OrderId)
    (orderStatus : option string) : Database -> Response * Database :=
  tryCatch (updateOrderStatus_body rt orderId orderStatus).

(** *** Histories of the order collection

    One step is one call of a controller of [orderController.js] that
    writes, or any change to books and carts made by the catalogue and cart
    controllers (which never touch an order).  The order collection starts
    empty. *)
Inductive step : Database -> Database -> Prop :=
  | step_createOrder rt req db :
      step db (createOrder rt req db).2
  | step_cancelOrder rt uid orderId db :
      step db (cancelOrder rt uid orderId db).2
  | step_updateOrderStatus rt orderId s db :
      step db (updateOrderStatus rt orderId s db).2
  | step_catalogue_cart db bs cs :
      step db (mkDatabase bs cs (orders db)).

Inductive reachable : Database -> Prop :=
  | reachable_init db : orders db = ∅ -> reachable db
  | reachable_step db db' : reachable db -> step db db' -> reachable db'.

(** ** Pagination metadata *)

(** [parseInt] of a [Number] that is an integer. *)
Definition parseInt (n : Z) : Z := n.

(** [a / b] of two integers: a rational, unless [b] is zero, when JavaScript
    yields [Infinity] or [NaN] ([None] here). *)
Definition divide (a b : Z) : option Q :=
  if b =? 0 then None else Some (inject_Z a / inject_Z b)%Q.

Definition Math_ceil (x : option Q) : option Z := Qceiling <$> x.



(** ** The rest of the order model *)

(** [orderSchema.virtual('isCompleted')] and [orderSchema.virtual('isActive')] *)
Definition isCompleted (this : Order) : bool :=
  bool_decide (orderStatus this = Delivered).

Definition isActive (this : Order) : bool :=
  negb (bool_decide (orderStatus this ∈ [Delivered; Cancelled])).

(** [orderSchema.virtual('daysSinceOrder')]: [now] is [new Date()]; on a
    document without [createdAt] the difference is [NaN] ([None] here). *)
Definition millisecondsPerDay : Z := 1000 * 60 * 60 * 24.

Definition daysSinceOrder (now : Z) (this : Order) : option Z :=
  match createdAt this with
  | None => None
  | Some orderDate =>
      let diffTime := Z.abs (now - orderDate) in
      Math_ceil (divide diffTime millisecondsPerDay)
  end.

(** What [getSummary] returns. *)
Record Summary := mkSummary {
  sum_orderNumber : string;
  sum_status : OrderStatus;
  sum_itemCount : Z;
  sum_totalItems : Z;
  sum_subtotal : Q;
  sum_tax : Q;
  sum_shippingCost : Q;
  sum_total : Q;
  sum_createdAt : option Z;
}.

Definition getSummary : Method Summary :=
  number ← read orderNumber;
  s ← read orderStatus;
  its ← read items;
  sub ← read subtotal;
  t ← read tax;
  c ← read shippingCost;
  tot ← read total;
  created ← read createdAt;
  mret (mkSummary number s
          (Z.of_nat (length its))
          (fold_left (fun acc item => acc + oi_quantity item) its 0)
          sub t c tot created).

(** ** The reading controllers of orderController.js *)

(** *** getOrderById

    The answer shows each item's book reference populated with the image
    path of the book; the model answers the stored document. *)
Definition getOrderById_body (uid : UserId) (orderId : OrderId) : Handler Response :=
  order ← Order_findOne orderId uid;
  match order with
  | None => reply (ErrorResponse 404 ORDER_NOT_FOUND)
  | Some order => mret (OrderResponse 200 orderId order)
  end.

Definition getOrderById (uid : UserId) (orderId : OrderId)
  : Database -> Response * Database :=
  tryCatch (getOrderById_body uid orderId).

(** *** getMyOrders *)

(** [req.query], its numbers parsed: a key that is left out is [None]. *)
Record OrdersQuery := mkOrdersQuery {
  q_page : option Z;
  q_limit : option Z;
  q_status : option string;
}.

Record OrdersPagination := mkOrdersPagination {
  op_currentPage : Z;
  op_totalPages : option Z;
  op_totalOrders : Z;
  op_limit : Z;
}.

(** The status of an error answer is looked up by its code in
    [constants/errors.js], which is not among the sources; the answer is
    modelled by the code. *)
Inductive OrdersResponse :=
  | OrdersPage (status : Z) (orders : list (OrderId * Order))
      (pagination : OrdersPagination)
  | OrdersError (code : ErrorCode).

(** The filter [{ userId }], with [orderStatus: status] when [status] is
    truthy.  A status string outside the enum matches no order. *)
Definition matchesQuery (uid : UserId) (status : option string) (o : Order) : bool :=
  bool_decide (userId o = uid) &&
  (if truthy status
   then bool_decide (status ≫= status_of_string = Some (orderStatus o))
   else true).

(** [sort({ createdAt: -1 })]: newer documents first, documents without the
    field last.  MongoDB does not fix the order of documents with equal
    [createdAt]; the stable sort here fixes one. *)
Definition created_le (a b : option Z) : Prop :=
  match a, b with
  | None, _ => True
  | Some _, None => False
  | Some x, Some y => x <= y
  end.

Definition newer_first (x y : OrderId * Order) : Prop :=
  created_le (createdAt y.2) (createdAt x.2).

#[global] Instance created_le_dec (a b : option Z) : Decision (created_le a b).
Proof. destruct a, b; cbn; apply _. Defined.

#[global] Instance newer_first_dec (x y : OrderId * Order) : Decision (newer_first x y).
Proof. unfold newer_first. apply _. Defined.

(** [Order.find(query)] and [Order.countDocuments(query)] *)
Definition Order_find (uid : UserId) (status : option string) (db : Database)
  : list (OrderId * Order) :=
  filter (fun x => matchesQuery uid status x.2 = true) (map_to_list (orders db)).

(** [.limit(n)]: zero is no limit; of a negative number the driver takes the
    absolute value. *)
Definition limitTo {A} (n : Z) (l : list A) : list A :=
  if n =? 0 then l else take (Z.to_nat (Z.abs n)) l.

(** A negative [skip] is refused by the database, and the rejection lands in
    the [catch] block. *)
Definition getMyOrders (uid : UserId) (query : OrdersQuery) (db : Database)
  : OrdersResponse * Database :=
  let page := default 1 (q_page query) in
  let limit := default 10 (q_limit query) in
  let status := q_status query in
  let skip := (parseInt page - 1) * parseInt limit in
  if skip <? 0 then (OrdersError INTERNAL_SERVER_ERROR, db)
  else
    let orders :=
      limitTo (parseInt limit)
        (drop (Z.to_nat skip)
           (merge_sort newer_first (Order_find uid status db))) in
    let total := Z.of_nat (length (Order_find uid status db)) in
    (OrdersPage 200 orders
       (mkOrdersPagination (parseInt page)
          (Math_ceil (divide total (parseInt limit)))
          total (parseInt limit)),
     db).

(** [orderSchema.statics.getOrdersByStatus]: the orders of all users with
    the status, newest first. *)
Definition getOrdersByStatus (status : string) (db : Database)
  : list (OrderId * Order) :=
  merge_sort newer_first
    (filter (fun x => status_of_string status = Some (orderStatus x.2))
       (map_to_list (orders db))).

(** ** The book controllers that the order life cycle meets

    [getBookById] and [deleteBook], which need nothing of the Book schema but
    the collection.  [bookId] is the identifier in the route, taken to be
    well formed; an error answer is modelled by its code, as above. *)
Inductive BookResponse :=
  | BookFound (status : Z) (book : Book)
  | BookDeleted (status : Z)
  | BookError (code : ErrorCode).

Definition getBookById (bookId : BookId) (db : Database) : BookResponse * Database :=
  match books db !! bookId with
  | None => (BookError BOOK_NOT_FOUND, db)
  | Some book => (BookFound 200 book, db)
  end.

Definition deleteBook (bookId : BookId) (db : Database) : BookResponse * Database :=
  match books db !! bookId with
  | None => (BookError BOOK_NOT_FOUND, db)
  | Some bookToDelete => (BookDeleted 200, set_books (delete bookId) db)
  end.

(** ** The words of the specification *)



(** The order of the life cycle, "pending -> confirmed -> processing ->
    shipped -> delivered". *)
Definition rank (s : OrderStatus) : option Z :=
  match s with
  | Pending => Some 0
  | Confirmed => Some 1
  | Processing => Some 2
  | Shipped => Some 3
  | Delivered => Some 4
  | Cancelled => None
  end.

Definition terminal (s : OrderStatus) : Prop := s = Delivered \/ s = Cancelled.

(** A move the state machine of the specification allows: forward along the
    chain, or to [Cancelled] from a state that is not terminal. *)
Definition allowed_move (s s' : OrderStatus) : Prop :=
  match rank s, rank s' with
  | Some a, Some b => a < b
  | Some _, None => s <> Delivered
  | None, _ => False
  end.

(** Recomputing the costs of an order whose costs were computed from its
    items, with the default options, changes nothing. *)
Definition costs_computed (o : Order) : Prop :=
  (calculateOrderCosts no_options o).2 = o.

(** The stock the lines of a list move for book [id]: the sum of [quantity]
    over the lines that name it. *)
Definition ordered_quantity {A} (bookId : A -> BookId) (quantity : A -> Z)
    (id : BookId) (l : list A) : Z :=
  foldr (fun item acc => if decide (bookId item = id) then quantity item + acc else acc)
        0 l.

(** The book collection after one [$inc] of the stock per line. *)
Definition adjustStock {A} (bookId : A -> BookId) (delta : A -> Z)
    (l : list A) (bs : gmap BookId Book) : gmap BookId Book :=
  foldl (fun bs item => alter (incStock (delta item)) (bookId item) bs) bs l.

(** The outcome of the loop "Validate stock availability for all items" on
    the populated cart, as a function of the catalogue the cart was
    populated from. *)
Fixpoint stockCheck (bs : gmap BookId Book) (l : list CartItem) : Outcome unit :=
  match l with
  | [] => Next tt
  | line :: l' =>
      match bs !! ci_bookId line with
      | None => Throw
      | Some b =>
          if b_stock b <? ci_quantity line
          then Return (ErrorResponse 400 INSUFFICIENT_STOCK)
          else stockCheck bs l'
      end
  end.

(** The document [createOrder] stores: the new order with its costs
    computed and its creation time set. *)
Definition createdOrder (rt : Runtime) (req : CreateOrderRequest)
    (orderItems : list OrderItem) (shippingAddress : ShippingAddress)
    (paymentMethod : string) : Order :=
  set_createdAt (Some (now rt))
    (calculateOrderCosts no_options
       (newOrder rt req orderItems shippingAddress paymentMethod)).2.

(** What holds of every stored order in a history of the collection: its
    costs are those computed from its items, the schema accepts it, and it
    has its creation time. *)
Definition order_sound (o : Order) : Prop :=
  costs_computed o /\ validate o = true /\ is_Some (createdAt o).

Definition orders_sound (db : Database) : Prop :=
  forall orderId o, orders db !! orderId = Some o -> order_sound o.


(** The cart line names a book of the catalogue that has enough stock. *)
Definition in_stock (bs : gmap BookId Book) (line : CartItem) : Prop :=
  exists b, bs !! ci_bookId line = Some b /\ ci_quantity line <= b_stock b.

(** The order line item is the snapshot of the cart line. *)
Definition snapshot_of (bs : gmap BookId Book) (line : CartItem) (item : OrderItem)
  : Prop :=
  exists b, bs !! ci_bookId line = Some b /\
    item = mkOrderItem (ci_bookId line) (b_title b) (b_author b)
             (ci_quantity line) (ci_price line)
             (ci_price line * inject_Z (ci_quantity line))%Q.


(** What no controller changes of a stored order: everything but
    orderStatus, cancelledAt and deliveredAt. *)
Definition same_record (o o' : Order) : Prop :=
  userId o' = userId o /\ orderNumber o' = orderNumber o /\
  items o' = items o /\ shippingAddress o' = shippingAddress o /\
  paymentMethod o' = paymentMethod o /\ paymentStatus o' = paymentStatus o /\
  subtotal o' = subtotal o /\ tax o' = tax o /\
  shippingCost o' = shippingCost o /\ total o' = total o /\
  notes o' = notes o /\ createdAt o' = createdAt o.



(** A string without the character "-". *)
Fixpoint no_dash (s : string) : Prop :=
  match s with
  | EmptyString => True
  | String c s' => c <> "-"%char /\ no_dash s'
  end.

(** ** Concrete inputs

    A catalogue of two books, a user (7) whose cart holds two copies of the
    first and one of the second, and a request to order the cart. *)
Module Example.

Definition rt : Runtime := mkRuntime 1700000000000 "LOX5Q2RW" "A1B2C".

Definition addr : ShippingAddress :=
  mkShippingAddress (Some "Ada Lovelace") (Some "555-0100")
    (Some "12 Analytical St") (Some "London") (Some "LDN") (Some "N1") None.

Definition dune : Book := mkBook "Dune" "Frank Herbert" (10 # 1) 5.
Definition emma : Book := mkBook "Emma" "Jane Austen" (15 # 1) 4.

Definition cart : Cart :=
  mkCart [mkCartItem 1%positive 2 (10 # 1); mkCartItem 2%positive 1 (15 # 1)]
         (35 # 1).

Definition db0 : Database :=
  mkDatabase {[1%positive := dune; 2%positive := emma]} {[7%positive := cart]} ∅.

Definition req : CreateOrderRequest :=
  mkCreateOrderRequest 7%positive (Some addr) (Some "credit_card") None.



(** The catalogue after the first book was deleted; the cart still names
    it. *)
Definition db_deleted : Database :=
  mkDatabase {[2%positive := emma]} {[7%positive := cart]} ∅.

(** The database after the order was placed, then delivered. *)
Definition db1 : Database := (createOrder rt req db0).2.

Definition db2 : Database :=
  (updateOrderStatus rt 1%positive (Some "delivered") db1).2.

(** An order as [createOrder] stores it. *)
Definition order1 : Order :=
  createdOrder rt req
    [mkOrderItem 1%positive "Dune" "Frank Herbert" 2 (10 # 1) ((10 # 1) * inject_Z 2)%Q;
     mkOrderItem 2%positive "Emma" "Jane Austen" 1 (15 # 1) ((15 # 1) * inject_Z 1)%Q]
    addr "credit_card".

(** That order once delivered. *)
Definition delivered1 : Order :=
  set_deliveredAt (Some (now rt)) (set_orderStatus Delivered order1).



(** The same order paid on delivery, and the database after it was placed
    and then delivered. *)
Definition req_cod : CreateOrderRequest :=
  mkCreateOrderRequest 7%positive (Some addr) (Some "cash_on_delivery") None.

Definition db_cod : Database := (createOrder rt req_cod db0).2.

Definition db_cod_delivered : Database :=
  (updateOrderStatus rt 1%positive (Some "delivered") db_cod).2.

End Example.

(** * Properties *)

(** ** Rounding to two decimals *)

Section Rounding.

Local Open Scope Q_scope.






End Rounding.

(** ** The cost computation *)



(** The document [calculateOrderCosts] leaves behind, field by field. *)
Lemma calculateOrderCosts_run (options : CostOptions) (this : Order) :
  let taxRate := default default_taxRate (opt_taxRate options) in
  let threshold :=
    default default_freeShippingThreshold (opt_freeShippingThreshold options) in
  let s := reduce_subtotals (items this) in
  let t := parseFloat (toFixed2 (s * taxRate)) in
  let c := if Qle_bool threshold s then 0%Q else flatShippingFee in
  let tot := parseFloat (toFixed2 (s + t + c)) in
  calculateOrderCosts options this =
    (mkCosts s t c tot,
     mkOrder (userId this) (orderNumber this) (items this)
       (shippingAddress this) (paymentMethod this) (paymentStatus this)
       (orderStatus this) s t c tot
       (notes this) (cancelledAt this) (deliveredAt this) (createdAt this)).
Proof. reflexivity. Qed.


(** ** The pre-save hook *)

Lemma calculateOrderCosts_computed (o : Order) :
  costs_computed (calculateOrderCosts no_options o).2.
Proof. reflexivity. Qed.

Lemma preSave_run (this : Order) :
  preSave this =
    (tt, if (0 <? Z.of_nat (length (items this))) && Qeq_bool (subtotal this) 0
         then (calculateOrderCosts no_options this).2 else this).
Proof.
  unfold preSave, mbind, Method_bind, read.
  destruct ((0 <? Z.of_nat (length (items this))) && Qeq_bool (subtotal this) 0);
    reflexivity.
Qed.

Lemma preSave_computed (this : Order) :
  costs_computed this -> (preSave this).2 = this.
Proof.
  intros H. rewrite preSave_run. cbn [snd].
  destruct (_ && _); [exact H | reflexivity].
Qed.

(** C7. Saving an order whose subtotal is not zero (or that has no items)
    leaves the whole document, and so subtotal, tax, shippingCost and total,
    as it is: the hook recomputes only when there are items and the subtotal
    is 0. *)
Theorem preSave_guard (this : Order) :
  items this = [] \/ ~ (subtotal this == 0)%Q ->
  (preSave this).2 = this /\
  subtotal (preSave this).2 = subtotal this /\
  tax (preSave this).2 = tax this /\
  shippingCost (preSave this).2 = shippingCost this /\
  total (preSave this).2 = total this.
Proof.
  intros H.
  assert (E : (preSave this).2 = this).
  { rewrite preSave_run. cbn [snd].
    destruct H as [H | H].
    - rewrite H. reflexivity.
    - destruct (Qeq_bool (subtotal this) 0) eqn:E.
      + apply Qeq_bool_iff in E. contradiction.
      + rewrite andb_false_r. reflexivity. }
  rewrite E. repeat split.
Qed.

(** ** Refund eligibility *)

(** C8. On a stored order, [canBeRefunded] answers true exactly when the
    order is delivered, its payment is completed and at most 30 days
    (2 592 000 000 ms) have passed since its creation; the order it is
    called on is left as it was. *)
Theorem canBeRefunded_spec (now created : Z) (this : Order) :
  createdAt this = Some created ->
  exists answer : bool,
    canBeRefunded now this = (Some answer, this) /\
    (answer = true <->
       orderStatus this = Delivered /\
       paymentStatus this = PayCompleted /\
       now - created <= 30 * (24 * 60 * 60 * 1000)).
Proof.
  intros Hc. unfold canBeRefunded, mbind, Method_bind, read. rewrite Hc.
  eexists. split; [reflexivity |].
  rewrite !andb_true_iff, !bool_decide_eq_true, Z.leb_le.
  unfold refundWindow. intuition lia.
Qed.

(** ** Pagination *)

Lemma ceiling_of_quotient (total limit : Z) :
  0 < limit ->
  let k := Qceiling (inject_Z total / inject_Z limit) in
  (k - 1) * limit < total <= k * limit.
Proof.
  intros Hl k.
  set (x := (inject_Z total / inject_Z limit)%Q) in *.
  assert (HL : (0 < inject_Z limit)%Q).
  { change 0%Q with (inject_Z 0). now rewrite <- Zlt_Qlt. }
  assert (Hx : (x * inject_Z limit == inject_Z total)%Q).
  { unfold x. field. intros E. rewrite E in HL. now apply Qlt_irrefl in HL. }
  pose proof (Qle_ceiling x) as Hle.
  pose proof (Qceiling_lt x) as Hlt.
  fold k in Hle, Hlt.
  split.
  - apply (Qmult_lt_r _ _ _ HL) in Hlt. rewrite Hx in Hlt.
    rewrite <- inject_Z_mult in Hlt. now rewrite <- Zlt_Qlt in Hlt.
  - apply (Qmult_le_r _ _ _ HL) in Hle. rewrite Hx in Hle.
    rewrite <- inject_Z_mult in Hle. now rewrite <- Zle_Qle in Hle.
Qed.


(** ** Running the controllers *)

Lemma bind_run {A B} (m : Handler A) (k : A -> Handler B) (db : Database) :
  (m ≫= k) db =
    match m db with
    | (Next a, db') => k a db'
    | (Return r, db') => (Return r, db')
    | (Throw, db') => (Throw, db')
    end.
Proof. reflexivity. Qed.

Lemma set_books_id (db : Database) : set_books (fun bs => bs) db = db.
Proof. now destruct db. Qed.

Lemma incStock_incStock (a b : Z) (bk : Book) :
  incStock a (incStock b bk) = incStock (b + a) bk.
Proof. unfold incStock; cbn. f_equal. lia. Qed.

Lemma incStock_0 (bk : Book) : incStock 0 bk = bk.
Proof. destruct bk; unfold incStock; cbn. f_equal. lia. Qed.

Lemma adjustStock_lookup {A} (bookId : A -> BookId) (delta : A -> Z)
    (l : list A) (bs : gmap BookId Book) (id : BookId) :
  adjustStock bookId delta l bs !! id =
    incStock (ordered_quantity bookId delta id l) <$> bs !! id.
Proof.
  revert bs. induction l as [| x l IH]; intros bs; cbn.
  - destruct (bs !! id) as [bk |]; cbn; [now rewrite incStock_0 | reflexivity].
  - unfold adjustStock in *. rewrite IH. destruct (decide (bookId x = id)) as [E | E].
    + rewrite E, lookup_alter_eq. destruct (bs !! id) as [bk |]; cbn; [| reflexivity].
      now rewrite incStock_incStock.
    + now rewrite lookup_alter_ne.
Qed.

Lemma restoreStock_run (item : OrderItem) (db : Database) :
  restoreStock item db =
    (Next tt, set_books (alter (incStock (oi_quantity item)) (oi_bookId item)) db).
Proof. reflexivity. Qed.

Lemma forEach_restoreStock (l : list OrderItem) (db : Database) :
  forEach l restoreStock db =
    (Next tt, set_books (adjustStock oi_bookId oi_quantity l) db).
Proof.
  revert db. induction l as [| x l IH]; intros db; cbn [forEach].
  - symmetry. apply (f_equal (pair (Next tt))), set_books_id.
  - rewrite bind_run, restoreStock_run, IH. reflexivity.
Qed.

Lemma takeStock_run (bs0 : gmap BookId Book) (line : CartItem) (db : Database) :
  is_Some (bs0 !! ci_bookId line) ->
  takeStock (populate bs0 line) db =
    (Next tt, set_books (alter (incStock (- ci_quantity line)) (ci_bookId line)) db).
Proof. intros [b Hb]. unfold takeStock, populate. cbn. now rewrite Hb. Qed.

Lemma forEach_takeStock (bs0 : gmap BookId Book) (l : list CartItem) (db : Database) :
  Forall (fun line => is_Some (bs0 !! ci_bookId line)) l ->
  forEach (populate bs0 <$> l) takeStock db =
    (Next tt, set_books (adjustStock ci_bookId (fun line => - ci_quantity line) l) db).
Proof.
  intros H. revert db. induction H as [| x l Hx _ IH]; intros db; cbn [forEach fmap list_fmap].
  - symmetry. apply (f_equal (pair (Next tt))), set_books_id.
  - rewrite bind_run, (takeStock_run _ _ _ Hx), IH. reflexivity.
Qed.

Lemma checkStock_run (line : CartItem) (db : Database) :
  checkStock (populate (books db) line) db =
    match books db !! ci_bookId line with
    | None => (Throw, db)
    | Some b =>
        if b_stock b <? ci_quantity line
        then (Return (ErrorResponse 400 INSUFFICIENT_STOCK), db)
        else (Next tt, db)
    end.
Proof.
  unfold checkStock, populate. cbn [pi_bookId pi_quantity].
  destruct (books db !! ci_bookId line) as [b |] eqn:Hb;
    cbn [fmap option_fmap option_map deref].
  - rewrite bind_run. cbn. rewrite bind_run. unfold Book_findById. cbn. rewrite Hb.
    now destruct (b_stock b <? ci_quantity line).
  - reflexivity.
Qed.

Lemma checkStock_pass (line : CartItem) (db : Database) :
  in_stock (books db) line ->
  checkStock (populate (books db) line) db = (Next tt, db).
Proof.
  intros (b & Hb & Hq). rewrite checkStock_run, Hb.
  destruct (Z.ltb_spec (b_stock b) (ci_quantity line)); [lia | reflexivity].
Qed.

Lemma forEach_checkStock_pass (l : list CartItem) (db : Database) :
  Forall (in_stock (books db)) l ->
  forEach (populate (books db) <$> l) checkStock db = (Next tt, db).
Proof.
  induction 1 as [| x l Hx _ IH]; cbn [forEach fmap list_fmap].
  - reflexivity.
  - rewrite bind_run, (checkStock_pass _ _ Hx). exact IH.
Qed.

Lemma orderItemOf_run (line : CartItem) (b : Book) (db : Database) :
  books db !! ci_bookId line = Some b ->
  orderItemOf (populate (books db) line) db =
    (Next (mkOrderItem (ci_bookId line) (b_title b) (b_author b)
             (ci_quantity line) (ci_price line)
             (ci_price line * inject_Z (ci_quantity line))%Q), db).
Proof. intros Hb. unfold orderItemOf, populate. cbn. now rewrite Hb. Qed.

Lemma mapH_orderItemOf (l : list CartItem) (db : Database) :
  Forall (fun line => is_Some (books db !! ci_bookId line)) l ->
  exists orderItems,
    mapH orderItemOf (populate (books db) <$> l) db = (Next orderItems, db) /\
    Forall2 (snapshot_of (books db)) l orderItems.
Proof.
  induction 1 as [| x l [b Hb] _ (its & IH & Hits)]; cbn [mapH fmap list_fmap].
  - exists []. split; [reflexivity | constructor].
  - eexists (_ :: its).
    rewrite bind_run, (orderItemOf_run _ _ _ Hb), bind_run, IH.
    split; [reflexivity |].
    constructor; [| exact Hits]. exists b. split; [exact Hb | reflexivity].
Qed.

Lemma Order_save_run (rt : Runtime) (orderId : OrderId) (order : Order) (db : Database) :
  Order_save rt orderId order db =
    if validate order
    then (Next (stampCreatedAt rt (preSave order).2),
          set_orders <[orderId := stampCreatedAt rt (preSave order).2]> db)
    else (Throw, db).
Proof. unfold Order_save. now destruct (validate order). Qed.

Lemma forEach_checkStock_run (l : list CartItem) (db : Database) :
  forEach (populate (books db) <$> l) checkStock db = (stockCheck (books db) l, db).
Proof.
  induction l as [| x l IH]; cbn [forEach fmap list_fmap stockCheck].
  - reflexivity.
  - rewrite bind_run, checkStock_run.
    destruct (books db !! ci_bookId x) as [b |]; [| reflexivity].
    destruct (b_stock b <? ci_quantity x); [reflexivity | exact IH].
Qed.

Lemma stockCheck_Next (bs : gmap BookId Book) (l : list CartItem) :
  stockCheck bs l = Next tt <-> Forall (in_stock bs) l.
Proof.
  induction l as [| x l IH]; cbn [stockCheck].
  - split; [constructor | reflexivity].
  - destruct (bs !! ci_bookId x) as [b |] eqn:Hb.
    + destruct (Z.ltb_spec (b_stock b) (ci_quantity x)) as [Hlt | Hge].
      * split; [discriminate |].
        intros H. inversion H as [| ? ? (b' & Hb' & Hq) _]; subst.
        rewrite Hb in Hb'. injection Hb' as <-. lia.
      * rewrite IH. split.
        -- intros H. constructor; [| exact H]. exists b. split; [exact Hb | lia].
        -- intros H. now inversion H.
    + split; [discriminate |].
      intros H. inversion H as [| ? ? (b' & Hb' & Hq) _]; subst.
      rewrite Hb in Hb'. discriminate.
Qed.

(** The loop has three outcomes only; BOOK_NOT_FOUND is not among them. *)
Lemma stockCheck_outcomes (bs : gmap BookId Book) (l : list CartItem) :
  stockCheck bs l = Next tt \/
  stockCheck bs l = Throw \/
  stockCheck bs l = Return (ErrorResponse 400 INSUFFICIENT_STOCK).
Proof.
  induction l as [| x l IH]; cbn [stockCheck]; [now left |].
  destruct (bs !! ci_bookId x) as [b |]; [| now (right; left)].
  destruct (b_stock b <? ci_quantity x); [now (right; right) | exact IH].
Qed.

(** When every line names a book of the catalogue and some line asks for
    more than the stock, the loop answers INSUFFICIENT_STOCK. *)
Lemma stockCheck_insufficient (bs : gmap BookId Book) (l : list CartItem) :
  Forall (fun line => is_Some (bs !! ci_bookId line)) l ->
  ~ Forall (in_stock bs) l ->
  stockCheck bs l = Return (ErrorResponse 400 INSUFFICIENT_STOCK).
Proof.
  intros Hall Hnot. rewrite <- stockCheck_Next in Hnot.
  induction Hall as [| x l [b Hb] _ IH]; cbn [stockCheck] in *; [congruence |].
  rewrite Hb in *. destruct (b_stock b <? ci_quantity x); [reflexivity | auto].
Qed.

(** When the first line that is not in stock names no book, reading the
    [_id] of its populated (null) reference throws. *)
Lemma stockCheck_missing_book (bs : gmap BookId Book) (l1 l2 : list CartItem)
    (line : CartItem) :
  Forall (in_stock bs) l1 ->
  bs !! ci_bookId line = None ->
  stockCheck bs (l1 ++ line :: l2) = Throw.
Proof.
  intros Hall Hnone. induction Hall as [| x l (b & Hb & Hq) _ IH]; cbn [stockCheck app].
  - now rewrite Hnone.
  - rewrite Hb. destruct (Z.ltb_spec (b_stock b) (ci_quantity x)); [lia | exact IH].
Qed.

Lemma in_stock_is_Some (bs : gmap BookId Book) (l : list CartItem) :
  Forall (in_stock bs) l -> Forall (fun line => is_Some (bs !! ci_bookId line)) l.
Proof.
  intros H. eapply Forall_impl; [exact H |]. intros x (b & Hb & _). now exists b.
Qed.

(** *** createOrder, case by case *)

Lemma truthy_Some (s : string) : truthy (Some s) = true <-> s <> ""%string.
Proof.
  unfold truthy, required. rewrite negb_true_iff. apply String.eqb_neq.
Qed.

Lemma createOrder_missing_fields (rt : Runtime) (req : CreateOrderRequest)
    (db : Database) :
  req_shippingAddress req = None \/ truthy (req_paymentMethod req) = false ->
  createOrder rt req db = (ErrorResponse 400 MISSING_FIELDS, db).
Proof.
  unfold createOrder, tryCatch, createOrder_body.
  intros [H | H].
  - rewrite H. reflexivity.
  - destruct (req_shippingAddress req); [| reflexivity].
    destruct (req_paymentMethod req) as [pm |]; [| reflexivity].
    rewrite H. reflexivity.
Qed.

Section WithFields.

Variables (rt : Runtime) (req : CreateOrderRequest) (db : Database).
Variables (addr : ShippingAddress) (pm : string).
Hypothesis Haddr : req_shippingAddress req = Some addr.
Hypothesis Hpm : req_paymentMethod req = Some pm.
Hypothesis Hpm_truthy : pm <> ""%string.

(** Past the guard on the request fields, up to the stock check. *)
Lemma createOrder_after_guard :
  createOrder rt req db =
    tryCatch
      (cart ← Cart_findOne_populate (req_userId req);
       match cart with
       | None => reply (ErrorResponse 400 EMPTY_CART)
       | Some cart_items =>
         if (Z.of_nat (length cart_items) =? 0)
         then reply (ErrorResponse 400 EMPTY_CART)
         else
           forEach cart_items checkStock;;
           orderItems ← mapH orderItemOf cart_items;
           oid ← newObjectId;
           let order := newOrder rt req orderItems addr pm in
           let order := (calculateOrderCosts no_options order).2 in
           order ← Order_save rt oid order;
           forEach cart_items takeStock;;
           Cart_save (req_userId req) (mkCart [] 0%Q);;
           mret (OrderResponse 201 oid order)
       end) db.
Proof.
  unfold createOrder, createOrder_body. rewrite Haddr, Hpm.
  rewrite (proj2 (truthy_Some pm) Hpm_truthy). reflexivity.
Qed.

Lemma createOrder_empty_cart :
  (forall cart, carts db !! req_userId req = Some cart -> cart_items cart = []) ->
  createOrder rt req db = (ErrorResponse 400 EMPTY_CART, db).
Proof.
  intros H. rewrite createOrder_after_guard. unfold tryCatch.
  rewrite bind_run. unfold Cart_findOne_populate.
  destruct (carts db !! req_userId req) as [cart |] eqn:E; [| reflexivity].
  cbn [fmap option_fmap option_map].
  rewrite (H cart); [reflexivity | congruence].
Qed.

Variable cart : Cart.
Hypothesis Hcart : carts db !! req_userId req = Some cart.
Hypothesis Hnonempty : cart_items cart <> [].

Lemma createOrder_after_cart :
  createOrder rt req db =
    tryCatch
      (let cart_items := populate (books db) <$> cart_items cart in
       forEach cart_items checkStock;;
       orderItems ← mapH orderItemOf cart_items;
       oid ← newObjectId;
       let order := newOrder rt req orderItems addr pm in
       let order := (calculateOrderCosts no_options order).2 in
       order ← Order_save rt oid order;
       forEach cart_items takeStock;;
       Cart_save (req_userId req) (mkCart [] 0%Q);;
       mret (OrderResponse 201 oid order)) db.
Proof.
  rewrite createOrder_after_guard. unfold tryCatch.
  rewrite bind_run. unfold Cart_findOne_populate. rewrite Hcart.
  cbn [fmap option_fmap option_map].
  destruct (cart_items cart) as [| x l]; [congruence |]. reflexivity.
Qed.

Lemma createOrder_stock_failure :
  stockCheck (books db) (cart_items cart) <> Next tt ->
  createOrder rt req db =
    (match stockCheck (books db) (cart_items cart) with
     | Return r => r
     | _ => ErrorResponse 500 INTERNAL_SERVER_ERROR
     end, db).
Proof.
  intros H. rewrite createOrder_after_cart. unfold tryCatch. cbn zeta.
  rewrite bind_run, forEach_checkStock_run.
  destruct (stockCheck (books db) (cart_items cart)) as [[] | r |];
    [congruence | reflexivity | reflexivity].
Qed.

Lemma createOrder_proceeds :
  Forall (in_stock (books db)) (cart_items cart) ->
  exists orderItems,
    Forall2 (snapshot_of (books db)) (cart_items cart) orderItems /\
    createOrder rt req db =
      if validate (calculateOrderCosts no_options
                     (newOrder rt req orderItems addr pm)).2
      then
        (OrderResponse 201 (fresh (dom (orders db)))
           (createdOrder rt req orderItems addr pm),
         mkDatabase
           (adjustStock ci_bookId (fun line => - ci_quantity line)
              (cart_items cart) (books db))
           (<[req_userId req := mkCart [] 0%Q]> (carts db))
           (<[fresh (dom (orders db)) := createdOrder rt req orderItems addr pm]>
              (orders db)))
      else (ErrorResponse 500 INTERNAL_SERVER_ERROR, db).
Proof.
  intros Hstock.
  destruct (mapH_orderItemOf (cart_items cart) db (in_stock_is_Some _ _ Hstock))
    as (orderItems & Hmap & Hsnap).
  exists orderItems. split; [exact Hsnap |].
  rewrite createOrder_after_cart. unfold tryCatch. cbn zeta.
  rewrite bind_run, (forEach_checkStock_pass _ _ Hstock).
  rewrite bind_run, Hmap.
  rewrite bind_run. unfold newObjectId at 1.
  rewrite bind_run, Order_save_run.
  destruct (validate _); [| reflexivity].
  rewrite (preSave_computed _ (calculateOrderCosts_computed _)).
  change (stampCreatedAt rt (calculateOrderCosts no_options
            (newOrder rt req orderItems addr pm)).2)
    with (createdOrder rt req orderItems addr pm).
  rewrite bind_run.
  rewrite (forEach_takeStock (books db) (cart_items cart) _
             (in_stock_is_Some _ _ Hstock)).
  reflexivity.
Qed.

End WithFields.

Lemma createOrder_cases (rt : Runtime) (req : CreateOrderRequest) (db : Database) :
  (exists st code,
     createOrder rt req db = (ErrorResponse st code, db) /\
     code <> BOOK_NOT_FOUND) \/
  (exists addr pm cart orderItems,
     req_shippingAddress req = Some addr /\
     req_paymentMethod req = Some pm /\ pm <> ""%string /\
     carts db !! req_userId req = Some cart /\ cart_items cart <> [] /\
     Forall (in_stock (books db)) (cart_items cart) /\
     Forall2 (snapshot_of (books db)) (cart_items cart) orderItems /\
     validate (calculateOrderCosts no_options
                 (newOrder rt req orderItems addr pm)).2 = true /\
     createOrder rt req db =
       (OrderResponse 201 (fresh (dom (orders db)))
          (createdOrder rt req orderItems addr pm),
        mkDatabase
          (adjustStock ci_bookId (fun line => - ci_quantity line)
             (cart_items cart) (books db))
          (<[req_userId req := mkCart [] 0%Q]> (carts db))
          (<[fresh (dom (orders db)) := createdOrder rt req orderItems addr pm]>
             (orders db)))).
Proof.
  destruct (req_shippingAddress req) as [addr |] eqn:Haddr.
  2: { left. exists 400, MISSING_FIELDS. split; [| discriminate].
       apply createOrder_missing_fields. now left. }
  destruct (truthy (req_paymentMethod req)) eqn:Htruthy.
  2: { left. exists 400, MISSING_FIELDS. split; [| discriminate].
       apply createOrder_missing_fields. now right. }
  destruct (req_paymentMethod req) as [pm |] eqn:Hpm; [| discriminate].
  apply truthy_Some in Htruthy.
  destruct (carts db !! req_userId req) as [cart |] eqn:Hcart.
  2: { left. exists 400, EMPTY_CART. split; [| discriminate].
       apply (createOrder_empty_cart rt req db addr pm Haddr Hpm Htruthy).
       intros cart Hc. congruence. }
  destruct (cart_items cart) as [| x l] eqn:Hitems.
  { left. exists 400, EMPTY_CART. split; [| discriminate].
    apply (createOrder_empty_cart rt req db addr pm Haddr Hpm Htruthy).
    intros cart' Hc. congruence. }
  assert (Hne : cart_items cart <> []) by (rewrite Hitems; discriminate).
  clear x l Hitems.
  destruct (stockCheck_outcomes (books db) (cart_items cart)) as [Hok | Hbad].
  - apply stockCheck_Next in Hok.
    destruct (createOrder_proceeds rt req db addr pm Haddr Hpm Htruthy cart Hcart Hne Hok)
      as (orderItems & Hsnap & Hrun).
    destruct (validate _) eqn:Hvalid.
    + right. exists addr, pm, cart, orderItems.
      repeat (split; [first [assumption | reflexivity] |]).
      exact Hrun.
    + left. exists 500, INTERNAL_SERVER_ERROR. split; [exact Hrun | discriminate].
  - left.
    assert (Hnot : stockCheck (books db) (cart_items cart) <> Next tt)
      by (destruct Hbad as [-> | ->]; discriminate).
    rewrite (createOrder_stock_failure rt req db addr pm Haddr Hpm Htruthy cart Hcart Hne Hnot).
    destruct Hbad as [-> | ->].
    + exists 500, INTERNAL_SERVER_ERROR. split; [reflexivity | discriminate].
    + exists 400, INSUFFICIENT_STOCK. split; [reflexivity | discriminate].
Qed.

(** *** cancelOrder and updateOrderStatus, as one equation each *)

Lemma cancelOrder_run (rt : Runtime) (uid : UserId) (orderId : OrderId) (db : Database) :
  cancelOrder rt uid orderId db =
    match orders db !! orderId with
    | Some o =>
      if decide (userId o = uid) then
        if bool_decide (orderStatus o ∈ [Delivered; Cancelled])
        then (ErrorResponse 400 INVALID_ORDER_STATUS, db)
        else
          let o1 := set_cancelledAt (Some (now rt)) (set_orderStatus Cancelled o) in
          if validate o1 then
            let o2 := stampCreatedAt rt (preSave o1).2 in
            (OrderResponse 200 orderId o2,
             mkDatabase (adjustStock oi_bookId oi_quantity (items o2) (books db))
               (carts db) (<[orderId := o2]> (orders db)))
          else (ErrorResponse 500 INTERNAL_SERVER_ERROR, db)
      else (ErrorResponse 404 ORDER_NOT_FOUND, db)
    | None => (ErrorResponse 404 ORDER_NOT_FOUND, db)
    end.
Proof.
  unfold cancelOrder, tryCatch, cancelOrder_body.
  rewrite bind_run. unfold Order_findOne.
  destruct (orders db !! orderId) as [o |]; [| reflexivity].
  destruct (decide (userId o = uid)); [| reflexivity].
  destruct (bool_decide _); [reflexivity |].
  rewrite bind_run, Order_save_run. cbn zeta.
  destruct (validate _); [| reflexivity].
  rewrite bind_run, forEach_restoreStock. reflexivity.
Qed.

Lemma updateOrderStatus_run (rt : Runtime) (orderId : OrderId)
    (s : option string) (db : Database) :
  updateOrderStatus rt orderId s db =
    match s ≫= status_of_string with
    | None => (ErrorResponse 400 INVALID_STATUS, db)
    | Some newStatus =>
      match orders db !! orderId with
      | None => (ErrorResponse 404 ORDER_NOT_FOUND, db)
      | Some o =>
        let o1 := set_orderStatus newStatus o in
        let o1 := if decide (newStatus = Delivered)
                  then set_deliveredAt (Some (now rt)) o1 else o1 in
        if validate o1 then
          let o2 := stampCreatedAt rt (preSave o1).2 in
          (OrderResponse 200 orderId o2,
           mkDatabase (books db) (carts db) (<[orderId := o2]> (orders db)))
        else (ErrorResponse 500 INTERNAL_SERVER_ERROR, db)
      end
    end.
Proof.
  unfold updateOrderStatus, tryCatch, updateOrderStatus_body.
  destruct (s ≫= status_of_string) as [newStatus |]; [| reflexivity].
  rewrite bind_run. unfold Order_findById.
  destruct (orders db !! orderId) as [o |]; [| reflexivity].
  rewrite bind_run, Order_save_run. cbn zeta.
  destruct (validate _); [| reflexivity].
  now destruct db.
Qed.

(** The strings [updateOrderStatus] accepts are those of [validStatuses]. *)
Lemma status_of_string_valid (s : string) :
  is_Some (status_of_string s) <-> s ∈ validStatuses.
Proof.
  unfold status_of_string, validStatuses.
  repeat match goal with
         | |- context [String.eqb s ?x] =>
             destruct (String.eqb_spec s x) as [-> | ?];
             [split; [intros _; set_solver | intros _; eexists; reflexivity] |]
         end.
  rewrite !elem_of_cons, elem_of_nil.
  split; [intros [? H]; discriminate | intuition congruence].
Qed.

(** ** What every stored order satisfies *)

Lemma preSave_keeps (o : Order) :
  let o' := (preSave o).2 in
  userId o' = userId o /\ orderNumber o' = orderNumber o /\
  items o' = items o /\ shippingAddress o' = shippingAddress o /\
  paymentMethod o' = paymentMethod o /\ paymentStatus o' = paymentStatus o /\
  orderStatus o' = orderStatus o /\ notes o' = notes o /\
  cancelledAt o' = cancelledAt o /\ deliveredAt o' = deliveredAt o /\
  createdAt o' = createdAt o.
Proof.
  cbn zeta. rewrite preSave_run. cbn [snd].
  destruct (_ && _); [rewrite calculateOrderCosts_run |]; cbn; repeat split.
Qed.

Lemma stampCreatedAt_stored (rt : Runtime) (o : Order) :
  is_Some (createdAt o) -> stampCreatedAt rt o = o.
Proof. intros [c Hc]. unfold stampCreatedAt. now rewrite Hc. Qed.

Lemma stampCreatedAt_items (rt : Runtime) (o : Order) :
  items (stampCreatedAt rt o) = items o.
Proof. unfold stampCreatedAt. now destruct (createdAt o). Qed.

(** The costs are a function of the items: assigning to another field keeps
    them computed. *)
Lemma costs_computed_same_costs (o o' : Order) :
  items o' = items o -> subtotal o' = subtotal o -> tax o' = tax o ->
  shippingCost o' = shippingCost o -> total o' = total o ->
  costs_computed o -> costs_computed o'.
Proof.
  unfold costs_computed. rewrite !calculateOrderCosts_run. cbn [snd].
  destruct o, o'; cbn. intros -> -> -> -> -> H.
  injection H as H1 H2 H3 H4. congruence.
Qed.

Lemma order_sound_set_orderStatus (s : OrderStatus) (o : Order) :
  order_sound o -> order_sound (set_orderStatus s o).
Proof.
  intros (Hc & Hv & Ht). split; [| split; [exact Hv | exact Ht]].
  now apply (costs_computed_same_costs o).
Qed.

Lemma order_sound_set_cancelledAt (t : option Z) (o : Order) :
  order_sound o -> order_sound (set_cancelledAt t o).
Proof.
  intros (Hc & Hv & Ht). split; [| split; [exact Hv | exact Ht]].
  now apply (costs_computed_same_costs o).
Qed.

Lemma order_sound_set_deliveredAt (t : option Z) (o : Order) :
  order_sound o -> order_sound (set_deliveredAt t o).
Proof.
  intros (Hc & Hv & Ht). split; [| split; [exact Hv | exact Ht]].
  now apply (costs_computed_same_costs o).
Qed.

(** Saving a sound order stores it as it is. *)
Lemma save_sound (rt : Runtime) (o : Order) :
  order_sound o -> stampCreatedAt rt (preSave o).2 = o.
Proof.
  intros (Hc & _ & Ht). rewrite (preSave_computed _ Hc).
  now apply stampCreatedAt_stored.
Qed.

Lemma createdOrder_sound (rt : Runtime) (req : CreateOrderRequest)
    (orderItems : list OrderItem) (addr : ShippingAddress) (pm : string) :
  validate (calculateOrderCosts no_options
              (newOrder rt req orderItems addr pm)).2 = true ->
  order_sound (createdOrder rt req orderItems addr pm).
Proof.
  intros Hv. split; [| split; [exact Hv | now eexists]].
  apply (costs_computed_same_costs
           (calculateOrderCosts no_options (newOrder rt req orderItems addr pm)).2);
    reflexivity.
Qed.

Lemma orders_sound_insert (db : Database) (orderId : OrderId) (o : Order)
    (os : gmap OrderId Order) :
  (forall i x, os !! i = Some x -> order_sound x) ->
  order_sound o ->
  forall i x, <[orderId := o]> os !! i = Some x -> order_sound x.
Proof.
  intros Hall Ho i x. destruct (decide (orderId = i)) as [-> | Hne].
  - rewrite lookup_insert_eq. now intros [= <-].
  - rewrite lookup_insert_ne by exact Hne. apply Hall.
Qed.

Lemma step_sound (db db' : Database) :
  step db db' -> orders_sound db -> orders_sound db'.
Proof.
  intros Hstep Hdb. destruct Hstep as [rt req db | rt uid oid db | rt oid s db | db bs cs].
  - destruct (createOrder_cases rt req db) as
      [(st & code & -> & _) | (addr & pm & cart & its & _ & _ & _ & _ & _ & _ & _ & Hv & ->)];
      [exact Hdb |].
    cbn [snd]. unfold orders_sound. cbn [orders].
    apply (orders_sound_insert db); [exact Hdb |].
    now apply createdOrder_sound.
  - rewrite cancelOrder_run.
    destruct (orders db !! oid) as [o |] eqn:Ho; [| exact Hdb].
    destruct (decide (userId o = uid)); [| exact Hdb].
    destruct (bool_decide _); [exact Hdb |]. cbn zeta.
    destruct (validate _); [| exact Hdb].
    assert (Hs : order_sound
                   (set_cancelledAt (Some (now rt)) (set_orderStatus Cancelled o))).
    { apply order_sound_set_cancelledAt, order_sound_set_orderStatus, (Hdb oid o Ho). }
    rewrite (save_sound rt _ Hs). cbn [snd]. unfold orders_sound. cbn [orders].
    now apply (orders_sound_insert db).
  - rewrite updateOrderStatus_run.
    destruct (s ≫= status_of_string) as [newStatus |]; [| exact Hdb].
    destruct (orders db !! oid) as [o |] eqn:Ho; [| exact Hdb]. cbn zeta.
    destruct (validate _); [| exact Hdb].
    assert (Hs : order_sound
                   (if decide (newStatus = Delivered)
                    then set_deliveredAt (Some (now rt)) (set_orderStatus newStatus o)
                    else set_orderStatus newStatus o)).
    { destruct (decide (newStatus = Delivered)).
      - apply order_sound_set_deliveredAt, order_sound_set_orderStatus, (Hdb oid o Ho).
      - apply order_sound_set_orderStatus, (Hdb oid o Ho). }
    rewrite (save_sound rt _ Hs). cbn [snd]. unfold orders_sound. cbn [orders].
    now apply (orders_sound_insert db).
  - exact Hdb.
Qed.

Lemma reachable_sound (db : Database) : reachable db -> orders_sound db.
Proof.
  induction 1 as [db H0 | db db' _ IH Hstep].
  - intros i o. rewrite H0, lookup_empty. discriminate.
  - exact (step_sound db db' Hstep IH).
Qed.

(** ** Creating an order *)


Lemma snapshot_subtotal (bs : gmap BookId Book) (line : CartItem) (item : OrderItem) :
  snapshot_of bs line item ->
  oi_bookId item = ci_bookId line /\ oi_quantity item = ci_quantity line /\
  oi_price item = ci_price line /\
  oi_subtotal item = (oi_price item * inject_Z (oi_quantity item))%Q.
Proof. intros (b & _ & ->). repeat split. Qed.


Lemma ordered_quantity_opp {A} (bookId : A -> BookId) (quantity : A -> Z)
    (id : BookId) (l : list A) :
  ordered_quantity bookId (fun x => - quantity x) id l =
    - ordered_quantity bookId quantity id l.
Proof.
  induction l as [| x l IH]; cbn; [reflexivity |].
  unfold ordered_quantity in *. cbn. destruct (decide (bookId x = id)); lia.
Qed.

Lemma ordered_quantity_snapshot (bs : gmap BookId Book) (id : BookId)
    (lines : list CartItem) (orderItems : list OrderItem) :
  Forall2 (snapshot_of bs) lines orderItems ->
  ordered_quantity oi_bookId oi_quantity id orderItems =
    ordered_quantity ci_bookId ci_quantity id lines.
Proof.
  induction 1 as [| line item lines its Hs _ IH]; [reflexivity |].
  apply snapshot_subtotal in Hs as (Hid & Hq & _).
  unfold ordered_quantity in *. cbn. rewrite Hid, Hq, IH. reflexivity.
Qed.

Lemma fresh_order_id (db : Database) : orders db !! fresh (dom (orders db)) = None.
Proof. apply not_elem_of_dom, is_fresh. Qed.






(** ** The failures of createOrder *)

(** No answer of [createOrder] carries BOOK_NOT_FOUND. *)
Lemma createOrder_never_BOOK_NOT_FOUND (rt : Runtime) (req : CreateOrderRequest)
    (db : Database) (st : Z) :
  (createOrder rt req db).1 <> ErrorResponse st BOOK_NOT_FOUND.
Proof.
  destruct (createOrder_cases rt req db) as
    [(st' & code & -> & Hcode) | (? & ? & ? & ? & _ & _ & _ & _ & _ & _ & _ & _ & ->)];
    cbn [fst]; congruence.
Qed.

(** A [createOrder] that answers with an error has changed nothing: no
    stock, no order, no cart. *)
Lemma createOrder_failure_changes_nothing (rt : Runtime) (req : CreateOrderRequest)
    (db : Database) (st : Z) (code : ErrorCode) :
  (createOrder rt req db).1 = ErrorResponse st code ->
  (createOrder rt req db).2 = db.
Proof.
  destruct (createOrder_cases rt req db) as
    [(st' & code' & -> & _) | (? & ? & ? & ? & _ & _ & _ & _ & _ & _ & _ & _ & ->)];
    cbn [fst snd]; [reflexivity | discriminate].
Qed.

(** With the request fields present: an absent or empty cart is answered
    EMPTY_CART ([createOrder_empty_cart]); a cart all of whose lines name
    books of the catalogue, one of them beyond the stock, is answered
    INSUFFICIENT_STOCK. *)
Lemma createOrder_insufficient_stock (rt : Runtime) (req : CreateOrderRequest)
    (db : Database) (addr : ShippingAddress) (pm : string) (cart : Cart) :
  req_shippingAddress req = Some addr ->
  req_paymentMethod req = Some pm -> pm <> ""%string ->
  carts db !! req_userId req = Some cart ->
  Forall (fun line => is_Some (books db !! ci_bookId line)) (cart_items cart) ->
  ~ Forall (in_stock (books db)) (cart_items cart) ->
  createOrder rt req db = (ErrorResponse 400 INSUFFICIENT_STOCK, db).
Proof.
  intros Haddr Hpm Ht Hcart Hall Hnot.
  assert (Hne : cart_items cart <> []).
  { intros E. apply Hnot. rewrite E. constructor. }
  pose proof (stockCheck_insufficient _ _ Hall Hnot) as Hcheck.
  rewrite (createOrder_stock_failure rt req db addr pm Haddr Hpm Ht cart Hcart Hne);
    rewrite Hcheck; [reflexivity | discriminate].
Qed.

(** A cart whose first line out of stock names a book that is no longer in
    the catalogue is answered INTERNAL_SERVER_ERROR. *)
Lemma createOrder_missing_book (rt : Runtime) (req : CreateOrderRequest)
    (db : Database) (addr : ShippingAddress) (pm : string) (cart : Cart)
    (l1 l2 : list CartItem) (line : CartItem) :
  req_shippingAddress req = Some addr ->
  req_paymentMethod req = Some pm -> pm <> ""%string ->
  carts db !! req_userId req = Some cart ->
  cart_items cart = l1 ++ line :: l2 ->
  Forall (in_stock (books db)) l1 ->
  books db !! ci_bookId line = None ->
  createOrder rt req db = (ErrorResponse 500 INTERNAL_SERVER_ERROR, db).
Proof.
  intros Haddr Hpm Ht Hcart Hitems Hl1 Hnone.
  assert (Hne : cart_items cart <> []).
  { rewrite Hitems. now destruct l1. }
  pose proof (stockCheck_missing_book _ _ l2 _ Hl1 Hnone) as Hcheck.
  rewrite <- Hitems in Hcheck.
  rewrite (createOrder_stock_failure rt req db addr pm Haddr Hpm Ht cart Hcart Hne);
    rewrite Hcheck; [reflexivity | discriminate].
Qed.

(** C4. The cart of the example names book 1, which was deleted from the
    catalogue: [createOrder] answers 500 INTERNAL_SERVER_ERROR, where the
    specification has BOOK_NOT_FOUND (404); nothing is changed. *)
Theorem createOrder_deleted_book :
  carts Example.db_deleted !! 7%positive = Some Example.cart /\
  (exists line, line ∈ cart_items Example.cart /\
                books Example.db_deleted !! ci_bookId line = None) /\
  createOrder Example.rt Example.req Example.db_deleted =
    (ErrorResponse 500 INTERNAL_SERVER_ERROR, Example.db_deleted).
Proof.
  split; [reflexivity |]. split; [| reflexivity].
  eexists. split; [apply list_elem_of_here | reflexivity].
Qed.

(** ** Cancelling an order *)

Lemma cancelOrder_sound_run (rt : Runtime) (uid : UserId) (orderId : OrderId)
    (db : Database) (o : Order) :
  orders db !! orderId = Some o -> order_sound o -> userId o = uid ->
  orderStatus o <> Delivered -> orderStatus o <> Cancelled ->
  let o' := set_cancelledAt (Some (now rt)) (set_orderStatus Cancelled o) in
  cancelOrder rt uid orderId db =
    (OrderResponse 200 orderId o',
     mkDatabase (adjustStock oi_bookId oi_quantity (items o) (books db))
       (carts db) (<[orderId := o']> (orders db))).
Proof.
  intros Ho Hs Hu Hd Hc o'. rewrite cancelOrder_run, Ho.
  destruct (decide (userId o = uid)); [| contradiction].
  rewrite bool_decide_eq_false_2.
  2: { rewrite !elem_of_cons, elem_of_nil. tauto. }
  cbn zeta. fold o'.
  assert (Hs' : order_sound o').
  { apply order_sound_set_cancelledAt, order_sound_set_orderStatus, Hs. }
  destruct Hs' as (Hc' & Hv' & Ht'). rewrite Hv'.
  rewrite (save_sound rt o'); [reflexivity | now repeat split].
Qed.

(** What a [cancelOrder] that succeeds has found and done. *)
Lemma cancelOrder_success (rt : Runtime) (uid : UserId) (orderId : OrderId)
    (db db' : Database) (st : Z) (i : OrderId) (o' : Order) :
  cancelOrder rt uid orderId db = (OrderResponse st i o', db') ->
  exists o,
    orders db !! orderId = Some o /\ userId o = uid /\
    orderStatus o <> Delivered /\ orderStatus o <> Cancelled /\
    st = 200 /\ i = orderId /\
    orderStatus o' = Cancelled /\
    cancelledAt o' = Some (now rt) /\
    items o' = items o /\
    orders db' = <[orderId := o']> (orders db) /\
    carts db' = carts db /\
    forall id,
      books db' !! id =
        incStock (ordered_quantity oi_bookId oi_quantity id (items o))
          <$> books db !! id.
Proof.
  rewrite cancelOrder_run. intros Hrun.
  destruct (orders db !! orderId) as [o |]; [| discriminate].
  destruct (decide (userId o = uid)) as [Hu |]; [| discriminate].
  destruct (bool_decide _) eqn:Hs; [discriminate |].
  apply bool_decide_eq_false in Hs. rewrite !elem_of_cons, elem_of_nil in Hs.
  cbn zeta in Hrun. destruct (validate _); [| discriminate].
  injection Hrun as <- <- <- <-.
  pose proof (preSave_keeps
                (set_cancelledAt (Some (now rt)) (set_orderStatus Cancelled o)))
    as (_ & _ & Hitems & _ & _ & _ & Hstatus & _ & Hcancelled & _).
  exists o. repeat match goal with |- _ /\ _ => split end;
    try reflexivity; try tauto.
  - unfold stampCreatedAt. destruct (createdAt _); [exact Hstatus |].
    cbn. exact Hstatus.
  - unfold stampCreatedAt. destruct (createdAt _); [exact Hcancelled |].
    cbn. exact Hcancelled.
  - rewrite stampCreatedAt_items. exact Hitems.
  - intros id. cbn [books]. rewrite adjustStock_lookup, stampCreatedAt_items, Hitems.
    reflexivity.
Qed.

(** C5. [cancelOrder] answers ORDER_NOT_FOUND when there is no such order or
    it is another user's; INVALID_ORDER_STATUS when the order is delivered
    or already cancelled, and then nothing is changed (neither the order nor
    any stock); and when it succeeds, the order was the caller's and neither
    delivered nor cancelled, it is now stored with orderStatus cancelled and
    cancelledAt the current time, and the stock of every book is raised by
    the quantity the order's lines hold of it. *)
Theorem cancelOrder_spec (rt : Runtime) (uid : UserId) (orderId : OrderId)
    (db : Database) :
  (orders db !! orderId = None ->
   cancelOrder rt uid orderId db = (ErrorResponse 404 ORDER_NOT_FOUND, db)) /\
  (forall o, orders db !! orderId = Some o -> userId o <> uid ->
   cancelOrder rt uid orderId db = (ErrorResponse 404 ORDER_NOT_FOUND, db)) /\
  (forall o, orders db !! orderId = Some o -> userId o = uid ->
   orderStatus o = Delivered \/ orderStatus o = Cancelled ->
   cancelOrder rt uid orderId db = (ErrorResponse 400 INVALID_ORDER_STATUS, db)) /\
  (forall st i o' db',
   cancelOrder rt uid orderId db = (OrderResponse st i o', db') ->
   exists o,
     orders db !! orderId = Some o /\ userId o = uid /\
     orderStatus o <> Delivered /\ orderStatus o <> Cancelled /\
     st = 200 /\ i = orderId /\
     orderStatus o' = Cancelled /\
     cancelledAt o' = Some (now rt) /\
     items o' = items o /\
     orders db' = <[orderId := o']> (orders db) /\
     carts db' = carts db /\
     forall id,
       books db' !! id =
         incStock (ordered_quantity oi_bookId oi_quantity id (items o))
           <$> books db !! id).
Proof.
  rewrite cancelOrder_run. repeat match goal with |- _ /\ _ => split end.
  - now intros ->.
  - intros o -> Hu. now destruct (decide (userId o = uid)).
  - intros o -> Hu Hs. destruct (decide (userId o = uid)); [| contradiction].
    rewrite bool_decide_eq_true_2; [reflexivity |].
    rewrite !elem_of_cons. tauto.
  - intros st i o' db' Hrun.
    destruct (orders db !! orderId) as [o |]; [| discriminate].
    destruct (decide (userId o = uid)) as [Hu |]; [| discriminate].
    destruct (bool_decide _) eqn:Hs; [discriminate |].
    apply bool_decide_eq_false in Hs. rewrite !elem_of_cons, elem_of_nil in Hs.
    cbn zeta in Hrun. destruct (validate _); [| discriminate].
    injection Hrun as <- <- <- <-.
    pose proof (preSave_keeps
                  (set_cancelledAt (Some (now rt)) (set_orderStatus Cancelled o)))
      as (_ & _ & Hitems & _ & _ & _ & Hstatus & _ & Hcancelled & _).
    exists o. repeat match goal with |- _ /\ _ => split end;
      try reflexivity; try tauto.
    + unfold stampCreatedAt. destruct (createdAt _); [exact Hstatus |].
      cbn. exact Hstatus.
    + unfold stampCreatedAt. destruct (createdAt _); [exact Hcancelled |].
      cbn. exact Hcancelled.
    + rewrite stampCreatedAt_items. exact Hitems.
    + intros id. cbn [books]. rewrite adjustStock_lookup, stampCreatedAt_items, Hitems.
      reflexivity.
Qed.

Lemma cancelOrder_spec_witness :
  exists o' db',
    cancelOrder Example.rt 7%positive 1%positive Example.db1 =
      (OrderResponse 200 1%positive o', db') /\
    orderStatus o' = Cancelled /\
    cancelledAt o' = Some (now Example.rt) /\
    b_stock <$> books Example.db1 !! 1%positive = Some 3 /\
    b_stock <$> books db' !! 1%positive = Some 5.
Proof.
  destruct (cancelOrder_spec Example.rt 7%positive 1%positive Example.db1)
    as (_ & _ & _ & H).
  eexists _, _. split; [vm_compute; reflexivity |].
  edestruct H as (o & _ & _ & _ & _ & _ & _ & Hs & Hc & _);
    [vm_compute; reflexivity |].
  split; [exact Hs |]. split; [exact Hc |]. split; reflexivity.
Defined.

(** C3. After a [createOrder] that succeeds and a [cancelOrder] of the order
    it made that succeeds, every book has the stock it had before the order:
    the book collection is the one before. *)
Theorem stock_conservation (rt rt' : Runtime) (req : CreateOrderRequest)
    (uid : UserId) (db db1 db2 : Database) (st st' : Z)
    (orderId orderId' : OrderId) (order order' : Order) :
  createOrder rt req db = (OrderResponse st orderId order, db1) ->
  cancelOrder rt' uid orderId db1 = (OrderResponse st' orderId' order', db2) ->
  books db2 = books db /\
  forall id, b_stock <$> books db2 !! id = b_stock <$> books db !! id.
Proof.
  intros Hcreate Hcancel.
  assert (Hbooks : books db2 = books db); [| split; [exact Hbooks | now rewrite Hbooks]].
  destruct (cancelOrder_success _ _ _ _ _ _ _ _ Hcancel)
    as (o & Ho & _ & _ & _ & _ & _ & _ & _ & _ & _ & _ & Hstock).
  clear Hcancel.
  destruct (createOrder_cases rt req db) as
    [(s & code & Hrun & _) |
     (addr & pm & cart & its & _ & _ & _ & _ & _ & _ & Hsnap & _ & Hrun)];
    rewrite Hrun in Hcreate; [discriminate |].
  injection Hcreate as <- <- <- <-.
  cbn [orders books] in Ho, Hstock. rewrite lookup_insert_eq in Ho. injection Ho as <-.
  apply map_eq. intros id. rewrite Hstock, adjustStock_lookup.
  change (items (createdOrder rt req its addr pm)) with its.
  rewrite (ordered_quantity_snapshot _ id _ _ Hsnap), ordered_quantity_opp.
  destruct (books db !! id) as [b |]; cbn; [| reflexivity].
  rewrite incStock_incStock, Z.add_opp_diag_l. now rewrite incStock_0.
Qed.

Lemma stock_conservation_witness :
  books (cancelOrder Example.rt 7%positive 1%positive Example.db1).2 =
    books Example.db0.
Proof.
  refine (proj1 (stock_conservation Example.rt Example.rt Example.req
                   7%positive Example.db0 Example.db1
                   (cancelOrder Example.rt 7%positive 1%positive Example.db1).2
                   201 200 1%positive 1%positive Example.order1
                   (set_cancelledAt (Some (now Example.rt))
                      (set_orderStatus Cancelled Example.order1)) _ _)).
  - vm_compute. reflexivity.
  - vm_compute. reflexivity.
Defined.

(** C10. In a history of the collection, a [cancelOrder] that succeeds
    changes two fields of the order, orderStatus (now cancelled) and
    cancelledAt; the items, subtotal, tax, shippingCost, total,
    shippingAddress, paymentMethod and paymentStatus are as before (a
    completed payment stays completed), as are all other orders and all
    carts. *)
Theorem cancelOrder_frame (rt : Runtime) (uid : UserId) (orderId : OrderId)
    (db db' : Database) (o o' : Order) (st : Z) (i : OrderId) :
  reachable db ->
  orders db !! orderId = Some o ->
  cancelOrder rt uid orderId db = (OrderResponse st i o', db') ->
  o' = set_cancelledAt (Some (now rt)) (set_orderStatus Cancelled o) /\
  items o' = items o /\
  subtotal o' = subtotal o /\ tax o' = tax o /\
  shippingCost o' = shippingCost o /\ total o' = total o /\
  shippingAddress o' = shippingAddress o /\
  paymentMethod o' = paymentMethod o /\
  paymentStatus o' = paymentStatus o /\
  orders db' = <[orderId := o']> (orders db) /\
  carts db' = carts db.
Proof.
  intros Hreach Ho Hrun.
  pose proof (reachable_sound db Hreach orderId o Ho) as Hs.
  destruct (cancelOrder_success _ _ _ _ _ _ _ _ Hrun) as (o0 & Ho0 & Hu & Hd & Hc & _).
  rewrite Ho in Ho0. injection Ho0 as <-.
  rewrite (cancelOrder_sound_run rt uid orderId db o Ho Hs Hu Hd Hc) in Hrun.
  injection Hrun as <- <- <- <-. repeat split.
Qed.

Lemma example_db1_reachable : reachable Example.db1.
Proof.
  apply (reachable_step Example.db0).
  - apply reachable_init. reflexivity.
  - apply step_createOrder.
Defined.

Lemma cancelOrder_frame_witness :
  let o' := set_cancelledAt (Some (now Example.rt))
              (set_orderStatus Cancelled Example.order1) in
  paymentStatus Example.order1 = PayCompleted /\
  paymentStatus o' = PayCompleted /\
  total o' = total Example.order1.
Proof.
  intros o'.
  destruct (cancelOrder_frame Example.rt 7%positive 1%positive Example.db1
              (cancelOrder Example.rt 7%positive 1%positive Example.db1).2
              Example.order1 o' 200 1%positive)
    as (_ & _ & _ & _ & _ & Ht & _ & _ & Hp & _).
  - exact example_db1_reachable.
  - vm_compute. reflexivity.
  - vm_compute. reflexivity.
  - split; [reflexivity |]. split; [rewrite Hp; reflexivity | exact Ht].
Defined.

(** ** The moves of orderStatus *)

Lemma updateOrderStatus_sound_run (rt : Runtime) (orderId : OrderId)
    (str : string) (newStatus : OrderStatus) (db : Database) (o : Order) :
  orders db !! orderId = Some o -> order_sound o ->
  status_of_string str = Some newStatus ->
  let o' := if decide (newStatus = Delivered)
            then set_deliveredAt (Some (now rt)) (set_orderStatus newStatus o)
            else set_orderStatus newStatus o in
  updateOrderStatus rt orderId (Some str) db =
    (OrderResponse 200 orderId o',
     mkDatabase (books db) (carts db) (<[orderId := o']> (orders db))).
Proof.
  intros Ho Hs Hstr o'. rewrite updateOrderStatus_run. cbn [mbind option_bind].
  rewrite Hstr, Ho. cbn zeta. fold o'.
  assert (Hs' : order_sound o').
  { subst o'. destruct (decide (newStatus = Delivered)).
    - apply order_sound_set_deliveredAt, order_sound_set_orderStatus, Hs.
    - apply order_sound_set_orderStatus, Hs. }
  destruct Hs' as (Hc' & Hv' & Ht'). rewrite Hv'.
  rewrite (save_sound rt o'); [reflexivity | now repeat split].
Qed.

(** C6 (as amended). In a history of the collection:
    [createOrder] leaves the stored orders as they are and adds one that is
    confirmed; [cancelOrder] changes the orderStatus of no order but the one
    it is called on, which it moves to cancelled, and only when it is the
    caller's and neither delivered nor cancelled - a move the life cycle
    allows; [updateOrderStatus] changes the orderStatus of no order but the
    one it is called on, and sets that to the status requested, whichever of
    the six it is and whatever the order's status was. *)
Theorem orderStatus_moves (rt : Runtime) (db : Database) :
  reachable db ->
  (forall req i o',
     orders (createOrder rt req db).2 !! i = Some o' ->
     orders db !! i = Some o' \/
     (orders db !! i = None /\ orderStatus o' = Confirmed)) /\
  (forall uid target i o o',
     orders db !! i = Some o ->
     orders (cancelOrder rt uid target db).2 !! i = Some o' ->
     orderStatus o' = orderStatus o \/
     (i = target /\ userId o = uid /\ orderStatus o' = Cancelled /\
      allowed_move (orderStatus o) (orderStatus o'))) /\
  (forall target o,
     orders db !! target = Some o -> ~ terminal (orderStatus o) ->
     exists o',
       orders (cancelOrder rt (userId o) target db).2 !! target = Some o' /\
       orderStatus o' = Cancelled) /\
  (forall target s i o o',
     orders db !! i = Some o ->
     orders (updateOrderStatus rt target s db).2 !! i = Some o' ->
     orderStatus o' = orderStatus o \/
     (i = target /\
      exists str, s = Some str /\ str ∈ validStatuses /\
                  status_of_string str = Some (orderStatus o'))) /\
  (forall target o str newStatus,
     orders db !! target = Some o ->
     status_of_string str = Some newStatus ->
     exists o',
       orders (updateOrderStatus rt target (Some str) db).2 !! target = Some o' /\
       orderStatus o' = newStatus).
Proof.
  intros Hreach. pose proof (reachable_sound db Hreach) as Hsound.
  repeat match goal with |- _ /\ _ => split end.
  - intros req i o'.
    destruct (createOrder_cases rt req db) as
      [(s & code & -> & _) |
       (addr & pm & cart & its & _ & _ & _ & _ & _ & _ & _ & _ & ->)];
      cbn [snd orders]; [now left |].
    destruct (decide (fresh (dom (orders db)) = i)) as [<- | Hne].
    + rewrite lookup_insert_eq. intros [= <-]. right.
      split; [apply fresh_order_id | reflexivity].
    + rewrite lookup_insert_ne by exact Hne. now left.
  - intros uid target i o o' Ho.
    rewrite cancelOrder_run.
    destruct (orders db !! target) as [t |] eqn:Htarget;
      [| cbn [snd]; rewrite Ho; intros [= <-]; now left].
    destruct (decide (userId t = uid)) as [Hu |];
      [| cbn [snd]; rewrite Ho; intros [= <-]; now left].
    destruct (bool_decide _) eqn:Hs; [cbn [snd]; rewrite Ho; intros [= <-]; now left |].
    apply bool_decide_eq_false in Hs. rewrite !elem_of_cons, elem_of_nil in Hs.
    cbn zeta. destruct (validate _); [| cbn [snd]; rewrite Ho; intros [= <-]; now left].
    cbn [snd orders].
    destruct (decide (target = i)) as [<- | Hne].
    + rewrite lookup_insert_eq. intros [= <-]. right.
      rewrite Htarget in Ho. injection Ho as <-.
      rewrite (save_sound rt).
      2: { apply order_sound_set_cancelledAt, order_sound_set_orderStatus,
             (Hsound target t Htarget). }
      repeat split; [exact Hu |]. cbn [orderStatus set_cancelledAt set_orderStatus].
      unfold allowed_move. destruct (orderStatus t); cbn; tauto.
    + rewrite lookup_insert_ne by exact Hne. rewrite Ho. intros [= <-]. now left.
  - intros target o Ho Hterm.
    rewrite (cancelOrder_sound_run rt (userId o) target db o Ho (Hsound target o Ho) eq_refl).
    + cbn [snd orders]. rewrite lookup_insert_eq. eexists. split; reflexivity.
    + intros E. apply Hterm. now left.
    + intros E. apply Hterm. now right.
  - intros target s i o o' Ho.
    rewrite updateOrderStatus_run.
    destruct s as [str |]; cbn [mbind option_bind];
      [| cbn [snd]; rewrite Ho; intros [= <-]; now left].
    destruct (status_of_string str) as [newStatus |] eqn:Hstr;
      [| cbn [snd]; rewrite Ho; intros [= <-]; now left].
    destruct (orders db !! target) as [t |] eqn:Htarget;
      [| cbn [snd]; rewrite Ho; intros [= <-]; now left].
    cbn zeta. destruct (validate _); [| cbn [snd]; rewrite Ho; intros [= <-]; now left].
    cbn [snd orders].
    destruct (decide (target = i)) as [<- | Hne].
    + rewrite lookup_insert_eq. intros [= <-]. right. split; [reflexivity |].
      exists str. split; [reflexivity |].
      split; [apply (proj1 (status_of_string_valid str)); rewrite Hstr; now eexists |].
      rewrite Hstr. f_equal.
      rewrite (save_sound rt).
      * now destruct (decide (newStatus = Delivered)).
      * destruct (decide (newStatus = Delivered)).
        -- apply order_sound_set_deliveredAt, order_sound_set_orderStatus,
             (Hsound target t Htarget).
        -- apply order_sound_set_orderStatus, (Hsound target t Htarget).
    + rewrite lookup_insert_ne by exact Hne. rewrite Ho. intros [= <-]. now left.
  - intros target o str newStatus Ho Hstr.
    rewrite (updateOrderStatus_sound_run rt target str newStatus db o Ho
               (Hsound target o Ho) Hstr).
    cbn [snd orders]. rewrite lookup_insert_eq. eexists. split; [reflexivity |].
    now destruct (decide (newStatus = Delivered)).
Qed.

Lemma example_db2_reachable : reachable Example.db2.
Proof.
  apply (reachable_step Example.db1).
  - exact example_db1_reachable.
  - apply step_updateOrderStatus.
Defined.

Lemma orderStatus_moves_witness :
  exists o',
    orders (updateOrderStatus Example.rt 1%positive (Some "shipped"%string)
              Example.db1).2 !! 1%positive = Some o' /\
    orderStatus o' = Shipped.
Proof.
  destruct (orderStatus_moves Example.rt Example.db1 example_db1_reachable)
    as (_ & _ & _ & _ & H).
  apply (H 1%positive Example.order1 "shipped"%string Shipped).
  - vm_compute. reflexivity.
  - reflexivity.
Defined.

(** C6, as first stated, fails: the order of the example, once delivered, is
    moved back to pending by [updateOrderStatus], out of a terminal state
    and against the order of the life cycle. *)
Lemma delivered_order_moves_back :
  let db3 := (updateOrderStatus Example.rt 1%positive (Some "pending"%string)
                Example.db2).2 in
  reachable Example.db2 /\
  orderStatus <$> orders Example.db2 !! 1%positive = Some Delivered /\
  orderStatus <$> orders db3 !! 1%positive = Some Pending /\
  terminal Delivered /\
  ~ allowed_move Delivered Pending.
Proof.
  split; [exact example_db2_reachable |].
  split; [vm_compute; reflexivity |].
  split; [vm_compute; reflexivity |].
  split; [now left |]. cbn. lia.
Qed.

(** ** The properties on the example *)


Lemma preSave_guard_witness :
  (preSave Example.order1).2 = Example.order1 /\
  total (preSave Example.order1).2 = (23680 # 100)%Q.
Proof.
  destruct (preSave_guard Example.order1) as (H & _ & _ & _ & Ht).
  - right. intros E. vm_compute in E. discriminate.
  - split; [exact H | rewrite Ht; reflexivity].
Defined.

Lemma canBeRefunded_spec_witness :
  exists answer,
    canBeRefunded (1700000000000 + 2592000000) Example.delivered1
      = (Some answer, Example.delivered1) /\
    answer = true.
Proof.
  destruct (canBeRefunded_spec (1700000000000 + 2592000000) 1700000000000
              Example.delivered1 eq_refl) as (answer & Hrun & Hiff).
  exists answer. split; [exact Hrun |].
  apply Hiff. repeat split. lia.
Defined.


(** * Further properties *)

(** ** The order model *)

Lemma canBeCancelled_run (this : Order) :
  canBeCancelled this =
    (negb (bool_decide (orderStatus this ∈ [Delivered; Cancelled])), this).
Proof. reflexivity. Qed.

(** X1. [cancelOrder] and the model agree on what can be cancelled: for an
    order of the caller, [cancelOrder] answers INVALID_ORDER_STATUS exactly
    when the order's [canBeCancelled()] is false; [canBeCancelled] is the
    [isActive] virtual and leaves the order as it is. *)
Theorem cancelOrder_guard_is_canBeCancelled (rt : Runtime) (uid : UserId)
    (orderId : OrderId) (db : Database) (o : Order) :
  orders db !! orderId = Some o -> userId o = uid ->
  ((cancelOrder rt uid orderId db).1 = ErrorResponse 400 INVALID_ORDER_STATUS <->
   (canBeCancelled o).1 = false) /\
  (canBeCancelled o).1 = isActive o /\
  (canBeCancelled o).2 = o.
Proof.
  intros Ho Hu. rewrite canBeCancelled_run. cbn [fst snd].
  split; [| split; reflexivity].
  rewrite cancelOrder_run, Ho.
  destruct (decide (userId o = uid)); [| contradiction].
  destruct (bool_decide (orderStatus o ∈ [Delivered; Cancelled])); cbn [negb].
  - split; reflexivity.
  - cbn zeta. destruct (validate _); cbn [fst]; split; discriminate.
Qed.

Lemma cancelOrder_guard_is_canBeCancelled_witness :
  (canBeCancelled Example.order1).1 = true /\
  (cancelOrder Example.rt 7%positive 1%positive Example.db1).1
    <> ErrorResponse 400 INVALID_ORDER_STATUS.
Proof.
  destruct (cancelOrder_guard_is_canBeCancelled Example.rt 7%positive 1%positive
              Example.db1 Example.order1) as ((H & _) & _).
  - vm_compute. reflexivity.
  - reflexivity.
  - split; [reflexivity |]. intros E. specialize (H E). discriminate.
Defined.

(** X2. An order that can be refunded is completed, is not active, and can
    no longer be cancelled: whoever calls [cancelOrder] on it gets an error
    answer and nothing is changed. *)
Theorem refundable_not_cancellable (now : Z) (rt : Runtime) (uid : UserId)
    (orderId : OrderId) (db : Database) (o : Order) :
  (canBeRefunded now o).1 = Some true ->
  orders db !! orderId = Some o ->
  isCompleted o = true /\ isActive o = false /\
  (canBeCancelled o).1 = false /\
  exists st code, cancelOrder rt uid orderId db = (ErrorResponse st code, db).
Proof.
  intros Hr Ho.
  assert (Hd : orderStatus o = Delivered).
  { unfold canBeRefunded, mbind, Method_bind, read in Hr.
    destruct (createdAt o); cbn in Hr; [| discriminate].
    injection Hr as Hr. rewrite !andb_true_iff, bool_decide_eq_true in Hr. tauto. }
  rewrite canBeCancelled_run. unfold isCompleted, isActive. cbn [fst]. rewrite Hd.
  repeat match goal with |- _ /\ _ => split end; try reflexivity.
  rewrite cancelOrder_run, Ho.
  destruct (decide (userId o = uid)); [| now eexists _, _].
  rewrite Hd. now eexists _, _.
Qed.

Lemma refundable_not_cancellable_witness :
  isActive Example.delivered1 = false /\
  exists st code,
    cancelOrder Example.rt 7%positive 1%positive Example.db2
      = (ErrorResponse st code, Example.db2).
Proof.
  destruct (refundable_not_cancellable (1700000000000 + 5) Example.rt 7%positive
              1%positive Example.db2 Example.delivered1)
    as (_ & Ha & _ & Hc).
  - reflexivity.
  - vm_compute. reflexivity.
  - split; [exact Ha | exact Hc].
Defined.

Lemma daysSinceOrder_ceiling (now created : Z) (this : Order) :
  createdAt this = Some created ->
  exists d,
    daysSinceOrder now this = Some d /\
    (d - 1) * 86400000 < Z.abs (now - created) <= d * 86400000.
Proof.
  intros Hc. unfold daysSinceOrder. rewrite Hc. cbn zeta.
  unfold divide, Math_ceil. change (millisecondsPerDay =? 0) with false.
  cbn [fmap option_fmap option_map].
  eexists. split; [reflexivity |].
  pose proof (ceiling_of_quotient (Z.abs (now - created)) millisecondsPerDay
                ltac:(reflexivity)) as H.
  cbn zeta in H. exact H.
Qed.

(** X3. [daysSinceOrder] of a stored order is the number of days, begun
    ones counted in full, between its creation and now, whichever is
    earlier: it is never negative, it is 0 only at the instant of creation,
    and [d - 1] days < |now - createdAt| <= [d] days. *)
Theorem daysSinceOrder_bounds (now created : Z) (this : Order) :
  createdAt this = Some created ->
  exists d,
    daysSinceOrder now this = Some d /\
    0 <= d /\
    (d - 1) * 86400000 < Z.abs (now - created) <= d * 86400000 /\
    (d = 0 <-> now = created).
Proof.
  intros Hc. destruct (daysSinceOrder_ceiling now created this Hc) as (d & Hd & Hb).
  exists d. split; [exact Hd |]. lia.
Qed.

Lemma daysSinceOrder_bounds_witness :
  daysSinceOrder (1700000000000 + 86400001) Example.order1 = Some 2.
Proof.
  destruct (daysSinceOrder_bounds (1700000000000 + 86400001) 1700000000000
              Example.order1 eq_refl) as (d & Hd & _ & Hb & _).
  rewrite Hd. f_equal. lia.
Defined.

(** X4. The refund window in days: a delivered, paid order whose
    [daysSinceOrder] is at most 30 can be refunded; and one that can be
    refunded, on a clock that is not behind its creation, has a
    [daysSinceOrder] of at most 30. *)
Theorem refund_window_in_days (now created d : Z) (this : Order) :
  createdAt this = Some created ->
  daysSinceOrder now this = Some d ->
  (orderStatus this = Delivered -> paymentStatus this = PayCompleted ->
   d <= 30 -> (canBeRefunded now this).1 = Some true) /\
  ((canBeRefunded now this).1 = Some true -> created <= now -> d <= 30).
Proof.
  intros Hc Hd.
  destruct (daysSinceOrder_ceiling now created this Hc) as (d' & Hd' & Hb).
  rewrite Hd in Hd'. injection Hd' as <-.
  unfold canBeRefunded, mbind, Method_bind, read. rewrite Hc. cbn [fst mret Method_ret].
  unfold refundWindow. split.
  - intros -> -> Hle. f_equal.
    rewrite !bool_decide_eq_true_2 by reflexivity. cbn [andb].
    apply Z.leb_le. lia.
  - intros [= H] Hnow. rewrite !andb_true_iff, Z.leb_le in H. lia.
Qed.

Lemma refund_window_in_days_witness :
  (canBeRefunded (1700000000000 + 30 * 86400000) Example.delivered1).1 = Some true.
Proof.
  refine (proj1 (refund_window_in_days (1700000000000 + 30 * 86400000)
                   1700000000000 30 Example.delivered1 eq_refl _) _ _ _).
  - vm_compute. reflexivity.
  - reflexivity.
  - reflexivity.
  - lia.
Defined.

Lemma fold_quantities_acc (l : list OrderItem) (a : Z) :
  fold_left (fun acc item => acc + oi_quantity item) l a =
    a + fold_left (fun acc item => acc + oi_quantity item) l 0.
Proof.
  revert a. induction l as [| x l IH]; intros a; cbn; [lia |].
  rewrite (IH (a + oi_quantity x)), (IH (0 + oi_quantity x)). lia.
Qed.

(** X5. [getSummary] leaves the order as it is and reports the stored costs;
    its itemCount is the number of lines and its totalItems the sum of their
    quantities, so for an order the schema accepts (every quantity at least
    1) totalItems is at least itemCount. *)
Theorem getSummary_counts (this : Order) :
  Forall (fun item => 1 <= oi_quantity item) (items this) ->
  let summary := (getSummary this).1 in
  (getSummary this).2 = this /\
  sum_itemCount summary = Z.of_nat (length (items this)) /\
  sum_totalItems summary = foldr (fun item acc => oi_quantity item + acc) 0 (items this) /\
  sum_itemCount summary <= sum_totalItems summary /\
  sum_total summary = total this /\ sum_status summary = orderStatus this.
Proof.
  intros Hq summary. subst summary.
  change (getSummary this) with
    (mkSummary (orderNumber this) (orderStatus this)
       (Z.of_nat (length (items this)))
       (fold_left (fun acc item => acc + oi_quantity item) (items this) 0)
       (subtotal this) (tax this) (shippingCost this) (total this)
       (createdAt this), this).
  cbn [fst snd sum_itemCount sum_totalItems sum_total sum_status].
  assert (E : fold_left (fun acc item => acc + oi_quantity item) (items this) 0 =
              foldr (fun item acc => oi_quantity item + acc) 0 (items this)).
  { clear Hq. induction (items this) as [| x l IH]; [reflexivity |].
    cbn. rewrite fold_quantities_acc, IH. lia. }
  repeat match goal with |- _ /\ _ => split end; try reflexivity; [exact E |].
  rewrite E. clear E. induction Hq as [| x l Hx _ IH]; [cbn; lia |].
  cbn [length foldr]. lia.
Qed.

Lemma getSummary_counts_witness :
  sum_itemCount (getSummary Example.order1).1 = 2 /\
  sum_totalItems (getSummary Example.order1).1 = 3.
Proof.
  destruct (getSummary_counts Example.order1) as (_ & Hc & Ht & _).
  - repeat constructor; cbn; lia.
  - split; [rewrite Hc | rewrite Ht]; reflexivity.
Defined.

(** ** Reading orders *)

Lemma getOrderById_run (uid : UserId) (orderId : OrderId) (db : Database) :
  getOrderById uid orderId db =
    (match orders db !! orderId with
     | Some o => if decide (userId o = uid) then OrderResponse 200 orderId o
                 else ErrorResponse 404 ORDER_NOT_FOUND
     | None => ErrorResponse 404 ORDER_NOT_FOUND
     end, db).
Proof.
  unfold getOrderById, tryCatch, getOrderById_body.
  rewrite bind_run. unfold Order_findOne.
  destruct (orders db !! orderId) as [o |]; [| reflexivity].
  now destruct (decide (userId o = uid)).
Qed.

(** X6. [getOrderById] changes nothing and shows an order exactly when it is
    stored under the identifier and is the caller's; it answers
    ORDER_NOT_FOUND in exactly the cases in which [cancelOrder] does, so an
    order a user cannot see is one the user cannot cancel. *)
Theorem getOrderById_visibility (rt : Runtime) (uid : UserId) (orderId : OrderId)
    (db : Database) :
  (getOrderById uid orderId db).2 = db /\
  (forall o, (getOrderById uid orderId db).1 = OrderResponse 200 orderId o <->
             orders db !! orderId = Some o /\ userId o = uid) /\
  ((getOrderById uid orderId db).1 = ErrorResponse 404 ORDER_NOT_FOUND <->
   (cancelOrder rt uid orderId db).1 = ErrorResponse 404 ORDER_NOT_FOUND).
Proof.
  rewrite getOrderById_run, cancelOrder_run. cbn [fst snd].
  split; [reflexivity |]. split.
  - intros o. destruct (orders db !! orderId) as [o0 |].
    + destruct (decide (userId o0 = uid)) as [Hu | Hu].
      * split; [intros [= <-]; now split | intros [[= <-] _]; reflexivity].
      * split; [discriminate | intros [[= <-] ?]; contradiction].
    + split; [discriminate | intros [? _]; discriminate].
  - destruct (orders db !! orderId) as [o0 |]; [| tauto].
    destruct (decide (userId o0 = uid)); [| tauto].
    destruct (bool_decide _); cbn [fst]; [split; discriminate |].
    cbn zeta. destruct (validate _); cbn [fst]; split; discriminate.
Qed.

#[global] Instance newer_first_total : Total newer_first.
Proof.
  intros x y. unfold newer_first, created_le.
  destruct (createdAt x.2), (createdAt y.2); cbn; try tauto. lia.
Qed.

#[global] Instance newer_first_trans : Transitive newer_first.
Proof.
  intros x y z. unfold newer_first, created_le.
  destruct (createdAt x.2), (createdAt y.2), (createdAt z.2); cbn; try tauto. lia.
Qed.

Lemma Order_find_elem (uid : UserId) (status : option string) (db : Database)
    (x : OrderId * Order) :
  x ∈ Order_find uid status db <->
  orders db !! x.1 = Some x.2 /\ matchesQuery uid status x.2 = true.
Proof.
  unfold Order_find. rewrite list_elem_of_filter. destruct x as [i o].
  rewrite elem_of_map_to_list. cbn. tauto.
Qed.

Lemma Order_find_NoDup (uid : UserId) (status : option string) (db : Database) :
  NoDup (Order_find uid status db).*1.
Proof.
  unfold Order_find.
  apply (sublist_NoDup _ (map_to_list (orders db)).*1).
  - apply NoDup_fst_map_to_list.
  - apply fmap_sublist, sublist_filter.
Qed.

Lemma limitTo_sublist {A} (n : Z) (l : list A) : limitTo n l `sublist_of` l.
Proof. unfold limitTo. destruct (n =? 0); [reflexivity | apply sublist_take]. Qed.

Lemma StronglySorted_take_drop {A} (R : relation A) (l : list A) (n : nat) :
  StronglySorted R l -> StronglySorted R (take n l) /\ StronglySorted R (drop n l).
Proof.
  intros H. rewrite <- (take_drop n l) in H.
  split; [eapply StronglySorted_app_1_l | eapply StronglySorted_app_1_r]; exact H.
Qed.

Lemma getMyOrders_run (uid : UserId) (query : OrdersQuery) (db : Database) :
  let page := default 1 (q_page query) in
  let limit := default 10 (q_limit query) in
  0 <= (page - 1) * limit ->
  getMyOrders uid query db =
    (OrdersPage 200
       (limitTo limit
          (drop (Z.to_nat ((page - 1) * limit))
             (merge_sort newer_first (Order_find uid (q_status query) db))))
       (mkOrdersPagination page
          (Math_ceil (divide (Z.of_nat (length (Order_find uid (q_status query) db)))
                        limit))
          (Z.of_nat (length (Order_find uid (q_status query) db))) limit),
     db).
Proof.
  intros page limit H. unfold getMyOrders, parseInt. fold page limit.
  destruct (Z.ltb_spec ((page - 1) * limit) 0); [lia | reflexivity].
Qed.

(** X7. [getMyOrders] changes nothing and shows the caller's orders only:
    every order of the page is stored under its identifier, belongs to the
    caller and, when a status is asked for, has that status; no order is
    shown twice. *)
Theorem getMyOrders_own_orders (uid : UserId) (query : OrdersQuery)
    (db db' : Database) (st : Z) (page : list (OrderId * Order))
    (pagination : OrdersPagination) :
  getMyOrders uid query db = (OrdersPage st page pagination, db') ->
  db' = db /\
  NoDup page.*1 /\
  Forall (fun x =>
            orders db !! x.1 = Some x.2 /\ userId x.2 = uid /\
            forall s, q_status query = Some s -> s <> ""%string ->
                      status_of_string s = Some (orderStatus x.2))
         page.
Proof.
  unfold getMyOrders. destruct (_ <? 0); [discriminate |].
  intros [= <- <- <- <-].
  set (found := Order_find uid (q_status query) db).
  assert (Hsub : limitTo (parseInt (default 10 (q_limit query)))
                   (drop (Z.to_nat ((parseInt (default 1 (q_page query)) - 1) *
                                    parseInt (default 10 (q_limit query))))
                      (merge_sort newer_first found))
                 `sublist_of` merge_sort newer_first found).
  { etransitivity; [apply limitTo_sublist | apply sublist_drop]. }
  split; [reflexivity |]. split.
  - apply (sublist_NoDup _ (merge_sort newer_first found).*1).
    + rewrite merge_sort_Permutation. apply Order_find_NoDup.
    + apply fmap_sublist, Hsub.
  - apply Forall_forall. intros x Hx.
    apply (sublist_subseteq _ _ Hsub) in Hx.
    rewrite merge_sort_Permutation in Hx.
    apply Order_find_elem in Hx as [Hstored Hm].
    unfold matchesQuery in Hm. apply andb_true_iff in Hm as [Hu Hs].
    apply bool_decide_eq_true in Hu.
    split; [exact Hstored |]. split; [exact Hu |].
    intros s Hq Hne. rewrite Hq in Hs.
    rewrite (proj2 (truthy_Some s) Hne) in Hs.
    now apply bool_decide_eq_true in Hs.
Qed.

Lemma getMyOrders_own_orders_witness :
  exists page pagination,
    getMyOrders 7%positive (mkOrdersQuery None None (Some "confirmed"%string))
      Example.db1 = (OrdersPage 200 page pagination, Example.db1) /\
    Forall (fun x => userId x.2 = 7%positive) page /\
    length page = 1%nat.
Proof.
  eexists _, _. split; [vm_compute; reflexivity |].
  split; [| reflexivity].
  destruct (getMyOrders_own_orders 7%positive
              (mkOrdersQuery None None (Some "confirmed"%string))
              Example.db1 Example.db1 200 _ _ ltac:(vm_compute; reflexivity))
    as (_ & _ & H).
  eapply Forall_impl; [exact H |]. intros x (_ & Hu & _). exact Hu.
Defined.

(** X8. For page >= 1 and limit >= 1 (defaults 1 and 10), [getMyOrders]
    answers 200 with the orders newest first, the page holding
    min(limit, max(0, total - (page - 1) x limit)) of them, where total, the
    [totalOrders] of the answer, counts the caller's orders that match; so a
    page past the end is empty and no page is longer than limit.
    [totalPages] is the ceiling of total / limit. *)
Theorem getMyOrders_page (uid : UserId) (query : OrdersQuery) (db : Database) :
  let page := default 1 (q_page query) in
  let limit := default 10 (q_limit query) in
  let total := Z.of_nat (length (Order_find uid (q_status query) db)) in
  1 <= page -> 1 <= limit ->
  exists orders pagination,
    getMyOrders uid query db = (OrdersPage 200 orders pagination, db) /\
    StronglySorted newer_first orders /\
    Z.of_nat (length orders) = Z.min limit (Z.max 0 (total - (page - 1) * limit)) /\
    op_totalOrders pagination = total /\
    op_currentPage pagination = page /\ op_limit pagination = limit /\
    exists k, op_totalPages pagination = Some k /\
              (k - 1) * limit < total <= k * limit.
Proof.
  intros page limit total Hp Hl.
  eexists _, _. split; [apply getMyOrders_run; fold page limit; nia |].
  fold page limit total. cbn [op_totalOrders op_currentPage op_limit op_totalPages].
  split.
  { unfold limitTo. destruct (Z.eqb_spec limit 0); [lia |].
    apply StronglySorted_take_drop, StronglySorted_take_drop.
    apply StronglySorted_merge_sort; apply _. }
  split.
  { unfold limitTo. destruct (Z.eqb_spec limit 0); [lia |].
    rewrite length_take, length_drop.
    rewrite (Permutation_length (merge_sort_Permutation newer_first _)).
    fold total. subst total. nia. }
  repeat split.
  unfold divide. destruct (Z.eqb_spec limit 0); [lia |].
  eexists. split; [reflexivity |].
  apply (ceiling_of_quotient total limit). lia.
Qed.

Lemma getMyOrders_page_witness :
  exists orders pagination,
    getMyOrders 7%positive (mkOrdersQuery (Some 2) (Some 5) None) Example.db1
      = (OrdersPage 200 orders pagination, Example.db1) /\
    orders = [] /\ op_totalOrders pagination = 1.
Proof.
  destruct (getMyOrders_page 7%positive (mkOrdersQuery (Some 2) (Some 5) None)
              Example.db1) as (orders & pagination & Hrun & _ & Hlen & Ht & _);
    [cbn; lia | cbn; lia |].
  exists orders, pagination. split; [exact Hrun |].
  split; [| rewrite Ht; vm_compute; reflexivity].
  destruct orders; [reflexivity |]. vm_compute in Hlen. discriminate.
Defined.

(** ** What the writing controllers leave alone *)

(** X9. [updateOrderStatus] never touches a book, a cart or any order but
    the one it is called on: in particular, setting an order to cancelled
    this way gives no stock back. *)
Theorem updateOrderStatus_touches_one_order (rt : Runtime) (orderId : OrderId)
    (s : option string) (db : Database) :
  let db' := (updateOrderStatus rt orderId s db).2 in
  books db' = books db /\ carts db' = carts db /\
  (forall i, i <> orderId -> orders db' !! i = orders db !! i) /\
  (is_Some (orders db' !! orderId) <-> is_Some (orders db !! orderId)).
Proof.
  cbn zeta. rewrite updateOrderStatus_run.
  destruct (s ≫= status_of_string) as [newStatus |]; [| cbn; tauto].
  destruct (orders db !! orderId) as [o |] eqn:Ho; [| cbn; rewrite Ho; tauto].
  cbn zeta. destruct (validate _); [| cbn; rewrite Ho; tauto].
  cbn [snd books carts orders]. repeat split.
  - intros i Hi. now rewrite lookup_insert_ne.
  - intros _. now eexists.
  - intros _. rewrite lookup_insert_eq. now eexists.
Qed.

(** X10. In a history of the collection, an [updateOrderStatus] that
    succeeds changes orderStatus, and deliveredAt when the new status is
    delivered, and nothing else: an order cancelled this way gets no
    cancelledAt, and an order moved away from delivered keeps its
    deliveredAt. *)
Theorem updateOrderStatus_frame (rt : Runtime) (orderId : OrderId)
    (s : option string) (db db' : Database) (o o' : Order) (st : Z) (i : OrderId) :
  reachable db ->
  orders db !! orderId = Some o ->
  updateOrderStatus rt orderId s db = (OrderResponse st i o', db') ->
  same_record o o' /\
  cancelledAt o' = cancelledAt o /\
  (orderStatus o' = Delivered -> deliveredAt o' = Some (now rt)) /\
  (orderStatus o' <> Delivered -> deliveredAt o' = deliveredAt o) /\
  s ≫= status_of_string = Some (orderStatus o').
Proof.
  intros Hreach Ho. pose proof (reachable_sound db Hreach orderId o Ho) as Hs.
  rewrite updateOrderStatus_run, Ho.
  destruct (s ≫= status_of_string) as [newStatus |]; [| discriminate].
  cbn zeta. destruct (validate _); [| discriminate].
  rewrite (save_sound rt).
  2: { destruct (decide (newStatus = Delivered)).
       - apply order_sound_set_deliveredAt, order_sound_set_orderStatus, Hs.
       - apply order_sound_set_orderStatus, Hs. }
  intros [= <- <- <- <-].
  destruct (decide (newStatus = Delivered)) as [-> | Hne]; cbn;
    unfold same_record; cbn; repeat split; congruence.
Qed.

Lemma updateOrderStatus_frame_witness :
  let o' := set_orderStatus Cancelled Example.order1 in
  orders (updateOrderStatus Example.rt 1%positive (Some "cancelled"%string)
            Example.db1).2 !! 1%positive = Some o' /\
  cancelledAt o' = None /\ same_record Example.order1 o'.
Proof.
  intros o'. split; [vm_compute; reflexivity |].
  destruct (updateOrderStatus_frame Example.rt 1%positive (Some "cancelled"%string)
              Example.db1
              (updateOrderStatus Example.rt 1%positive (Some "cancelled"%string)
                 Example.db1).2
              Example.order1 o' 200 1%positive example_db1_reachable)
    as (Hsame & Hc & _);
    [vm_compute; reflexivity | vm_compute; reflexivity |].
  split; [exact Hc | exact Hsame].
Defined.



Lemma same_record_refl (o : Order) : same_record o o.
Proof. unfold same_record. repeat split. Qed.

Lemma same_record_trans (a b c : Order) :
  same_record a b -> same_record b c -> same_record a c.
Proof. unfold same_record. intuition congruence. Qed.

(** One step keeps every stored order, up to the three fields of its life
    cycle. *)
Lemma step_keeps_orders (db db' : Database) :
  orders_sound db -> step db db' ->
  forall i o, orders db !! i = Some o ->
  exists o', orders db' !! i = Some o' /\ same_record o o'.
Proof.
  intros Hsound Hstep i o Ho.
  destruct Hstep as [rt req db | rt uid t db | rt t s db | db bs cs].
  - destruct (createOrder_cases rt req db) as
      [(st & code & -> & _) |
       (addr & pm & cart & its & _ & _ & _ & _ & _ & _ & _ & _ & ->)];
      cbn [snd orders].
    + exists o. split; [exact Ho | apply same_record_refl].
    + exists o. split; [| apply same_record_refl].
      rewrite lookup_insert_ne; [exact Ho |].
      intros E. rewrite <- E, fresh_order_id in Ho. discriminate.
  - rewrite cancelOrder_run.
    destruct (orders db !! t) as [x |] eqn:Ht;
      [| exists o; split; [exact Ho | apply same_record_refl]].
    destruct (decide (userId x = uid));
      [| exists o; split; [exact Ho | apply same_record_refl]].
    destruct (bool_decide _);
      [exists o; split; [exact Ho | apply same_record_refl] |].
    cbn zeta. destruct (validate _);
      [| exists o; split; [exact Ho | apply same_record_refl]].
    rewrite (save_sound rt).
    2: { apply order_sound_set_cancelledAt, order_sound_set_orderStatus,
           (Hsound t x Ht). }
    cbn [snd orders]. destruct (decide (t = i)) as [-> | Hne].
    + rewrite lookup_insert_eq. rewrite Ho in Ht. injection Ht as <-.
      eexists. split; [reflexivity |]. unfold same_record. cbn. repeat split.
    + rewrite lookup_insert_ne by exact Hne.
      exists o. split; [exact Ho | apply same_record_refl].
  - rewrite updateOrderStatus_run.
    destruct (s ≫= status_of_string) as [newStatus |];
      [| exists o; split; [exact Ho | apply same_record_refl]].
    destruct (orders db !! t) as [x |] eqn:Ht;
      [| exists o; split; [exact Ho | apply same_record_refl]].
    cbn zeta. destruct (validate _);
      [| exists o; split; [exact Ho | apply same_record_refl]].
    rewrite (save_sound rt).
    2: { destruct (decide (newStatus = Delivered)).
         - apply order_sound_set_deliveredAt, order_sound_set_orderStatus,
             (Hsound t x Ht).
         - apply order_sound_set_orderStatus, (Hsound t x Ht). }
    cbn [snd orders]. destruct (decide (t = i)) as [-> | Hne].
    + rewrite lookup_insert_eq. rewrite Ho in Ht. injection Ht as <-.
      eexists. split; [reflexivity |].
      destruct (decide (newStatus = Delivered)); unfold same_record; cbn;
        repeat split.
    + rewrite lookup_insert_ne by exact Hne.
      exists o. split; [exact Ho | apply same_record_refl].
  - exists o. split; [exact Ho | apply same_record_refl].
Qed.

Lemma history_keeps_orders (db db' : Database) (i : OrderId) (o : Order) :
  reachable db -> rtc step db db' ->
  orders db !! i = Some o ->
  exists o', orders db' !! i = Some o' /\ same_record o o'.
Proof.
  intros Hreach Hsteps. revert o.
  induction Hsteps as [db | db db1 db2 Hstep _ IH]; intros o Ho.
  - exists o. split; [exact Ho | apply same_record_refl].
  - destruct (step_keeps_orders db db1 (reachable_sound db Hreach) Hstep i o Ho)
      as (o1 & Ho1 & Hsame1).
    destruct (IH (reachable_step db db1 Hreach Hstep) o1 Ho1) as (o2 & Ho2 & Hsame2).
    exists o2. split; [exact Ho2 | exact (same_record_trans _ _ _ Hsame1 Hsame2)].
Qed.

(** X12. Orders are kept and their content is fixed: along any history of
    the collection, an order once stored stays stored under its identifier,
    with the same owner, order number, items, shipping address, payment
    method, payment status, subtotal, tax, shipping cost, total, notes and
    creation time. *)
Theorem stored_order_is_immutable (db db' : Database) (i : OrderId) (o : Order) :
  reachable db -> rtc step db db' ->
  orders db !! i = Some o ->
  exists o', orders db' !! i = Some o' /\ same_record o o'.
Proof. exact (history_keeps_orders db db' i o). Qed.

Lemma stored_order_is_immutable_witness :
  exists o',
    orders Example.db2 !! 1%positive = Some o' /\
    items o' = items Example.order1 /\ total o' = total Example.order1.
Proof.
  destruct (stored_order_is_immutable Example.db1 Example.db2 1%positive
              Example.order1 example_db1_reachable)
    as (o' & Ho' & Hsame).
  - apply rtc_once, step_updateOrderStatus.
  - vm_compute. reflexivity.
  - exists o'. split; [exact Ho' |].
    destruct Hsame as (_ & _ & Hi & _ & _ & _ & _ & _ & _ & Ht & _). now split.
Defined.







(** X14. [createOrder] touches one cart at most, the caller's, and only when
    it succeeds, leaving it empty with total 0; every other user's cart is
    as it was. *)
Theorem createOrder_carts (rt : Runtime) (req : CreateOrderRequest) (db : Database)
    (uid : UserId) :
  let r := createOrder rt req db in
  carts r.2 !! uid = carts db !! uid \/
  (uid = req_userId req /\
   carts r.2 !! uid = Some (mkCart [] 0%Q) /\
   exists orderId order, r.1 = OrderResponse 201 orderId order).
Proof.
  cbn zeta.
  destruct (createOrder_cases rt req db) as
    [(st & code & -> & _) |
     (addr & pm & cart & its & _ & _ & _ & _ & _ & _ & _ & _ & ->)];
    cbn [fst snd carts]; [now left |].
  destruct (decide (req_userId req = uid)) as [<- | Hne].
  - right. rewrite lookup_insert_eq. split; [reflexivity |].
    split; [reflexivity |]. now eexists _, _.
  - left. now rewrite lookup_insert_ne.
Qed.

Lemma ordered_quantity_absent {A} (bookId : A -> BookId) (quantity : A -> Z)
    (id : BookId) (l : list A) :
  id ∉ bookId <$> l -> ordered_quantity bookId quantity id l = 0.
Proof.
  induction l as [| x l IH]; [reflexivity |].
  rewrite fmap_cons, not_elem_of_cons. intros [Hx Hl].
  unfold ordered_quantity in *. cbn.
  destruct (decide (bookId x = id)); [congruence |]. now apply IH.
Qed.

Lemma ordered_quantity_in_stock (bs : gmap BookId Book) (id : BookId) (b : Book)
    (l : list CartItem) :
  NoDup (ci_bookId <$> l) -> Forall (in_stock bs) l ->
  bs !! id = Some b -> 0 <= b_stock b ->
  ordered_quantity ci_bookId ci_quantity id l <= b_stock b.
Proof.
  intros Hnd Hall Hb Hpos. induction Hall as [| x l (bx & Hbx & Hq) _ IH].
  - cbn. exact Hpos.
  - rewrite fmap_cons in Hnd. apply NoDup_cons in Hnd as [Hx Hnd].
    unfold ordered_quantity in *. cbn.
    destruct (decide (ci_bookId x = id)) as [E | E].
    + rewrite E in Hx, Hbx.
      pose proof (ordered_quantity_absent ci_bookId ci_quantity id l Hx) as H0.
      unfold ordered_quantity in H0. rewrite H0.
      rewrite Hb in Hbx. injection Hbx as <-. lia.
    + now apply IH.
Qed.

(** X15. [createOrder] does not oversell a cart that has one line per book
    at most: if no stock is negative before, none is after.  (The check is
    made line by line, so two lines on one book can each pass and together
    take more than there is.) *)
Theorem createOrder_keeps_stock_nonnegative (rt : Runtime)
    (req : CreateOrderRequest) (db : Database) :
  (forall id b, books db !! id = Some b -> 0 <= b_stock b) ->
  (forall cart, carts db !! req_userId req = Some cart ->
                NoDup (ci_bookId <$> cart_items cart)) ->
  forall id b, books (createOrder rt req db).2 !! id = Some b -> 0 <= b_stock b.
Proof.
  intros Hpos Hnd id b.
  destruct (createOrder_cases rt req db) as
    [(st & code & -> & _) |
     (addr & pm & cart & its & _ & _ & _ & Hcart & _ & Hstock & _ & _ & ->)];
    cbn [snd books]; [apply Hpos |].
  rewrite adjustStock_lookup, ordered_quantity_opp.
  destruct (books db !! id) as [b0 |] eqn:Hb0; [| discriminate].
  intros [= <-]. cbn.
  pose proof (ordered_quantity_in_stock (books db) id b0 (cart_items cart)
                (Hnd cart Hcart) Hstock Hb0 (Hpos id b0 Hb0)).
  lia.
Qed.

Lemma createOrder_keeps_stock_nonnegative_witness :
  forallb (fun x => 0 <=? b_stock x.2) (map_to_list (books Example.db1)) = true /\
  b_stock <$> books Example.db1 !! 1%positive = Some 3.
Proof.
  split; [| reflexivity].
  apply forallb_forall. intros [id b] Hin.
  apply list_elem_of_In, elem_of_map_to_list in Hin. apply Z.leb_le. cbn.
  apply (createOrder_keeps_stock_nonnegative Example.rt Example.req Example.db0)
    with (id := id); [| | exact Hin].
  - intros i x Hx. apply elem_of_map_to_list in Hx.
    set (l := map_to_list (books Example.db0)) in Hx. vm_compute in l. subst l.
    rewrite !elem_of_cons, elem_of_nil in Hx.
    destruct Hx as [[= -> ->] | [[= -> ->] | []]]; cbn; lia.
  - intros c Hc.
    vm_compute in Hc. injection Hc as <-.
    apply (bool_decide_unpack _). reflexivity.
Defined.



(** ** Amounts in whole cents *)








(** ** Pagination, once more *)



(** ** Books and the orders that name them *)

(** X19. [deleteBook] answers BOOK_NOT_FOUND and changes nothing when there
    is no such book; otherwise it removes that book and nothing else - no
    other book, no order, and no cart, so carts that name the book keep
    naming it - and a second [deleteBook], or a [getBookById], of the same
    identifier then answers BOOK_NOT_FOUND. *)
Theorem deleteBook_spec (bookId : BookId) (db : Database) :
  (books db !! bookId = None ->
   deleteBook bookId db = (BookError BOOK_NOT_FOUND, db)) /\
  (is_Some (books db !! bookId) ->
   let db' := (deleteBook bookId db).2 in
   (deleteBook bookId db).1 = BookDeleted 200 /\
   books db' !! bookId = None /\
   (forall id, id <> bookId -> books db' !! id = books db !! id) /\
   carts db' = carts db /\ orders db' = orders db /\
   deleteBook bookId db' = (BookError BOOK_NOT_FOUND, db') /\
   getBookById bookId db' = (BookError BOOK_NOT_FOUND, db')).
Proof.
  unfold deleteBook, getBookById. split.
  - now intros ->.
  - intros [b Hb]. rewrite Hb. cbn [fst snd books carts orders set_books].
    rewrite lookup_delete_eq.
    repeat match goal with |- _ /\ _ => split end; try reflexivity.
    intros id Hid. now rewrite lookup_delete_ne.
Qed.

Lemma deleteBook_spec_witness :
  (deleteBook 1%positive Example.db0).2 = Example.db_deleted.
Proof.
  destruct (deleteBook_spec 1%positive Example.db0) as [_ H].
  destruct H as (_ & _ & _ & _ & _ & _); [now eexists |].
  vm_compute. reflexivity.
Defined.

(** X20. After [deleteBook] has removed a book, no [createOrder] for a cart
    that still names it succeeds: the answer is an error (never
    BOOK_NOT_FOUND), and neither stock, nor cart, nor orders change. *)
Theorem deleteBook_blocks_createOrder (rt : Runtime) (req : CreateOrderRequest)
    (bookId : BookId) (db db' : Database) (st : Z) (cart : Cart) (line : CartItem) :
  deleteBook bookId db = (BookDeleted st, db') ->
  carts db !! req_userId req = Some cart ->
  line ∈ cart_items cart -> ci_bookId line = bookId ->
  exists code,
    (exists s, createOrder rt req db' = (ErrorResponse s code, db')) /\
    code <> BOOK_NOT_FOUND.
Proof.
  unfold deleteBook. destruct (books db !! bookId); [| discriminate].
  intros [= <- <-] Hcart Hline Hid.
  destruct (createOrder_cases rt req (set_books (delete bookId) db)) as
    [(s & code & Hrun & Hcode) |
     (addr & pm & cart' & its & _ & _ & _ & Hcart' & _ & Hstock & _)].
  - exists code. split; [now exists s | exact Hcode].
  - exfalso. cbn [carts set_books] in Hcart'. rewrite Hcart in Hcart'.
    injection Hcart' as <-.
    rewrite Forall_forall in Hstock.
    destruct (Hstock line Hline) as (bk & Hb & _).
    cbn [books set_books] in Hb. rewrite Hid, lookup_delete_eq in Hb. discriminate.
Qed.

Lemma deleteBook_blocks_createOrder_witness :
  exists code,
    (exists s, createOrder Example.rt Example.req Example.db_deleted
               = (ErrorResponse s code, Example.db_deleted)) /\
    code <> BOOK_NOT_FOUND.
Proof.
  apply (deleteBook_blocks_createOrder Example.rt Example.req 1%positive
           Example.db0 Example.db_deleted 200 Example.cart
           (mkCartItem 1%positive 2 (10 # 1))).
  - vm_compute. reflexivity.
  - reflexivity.
  - apply list_elem_of_here.
  - reflexivity.
Defined.

(** ** Order numbers *)

Lemma append_dash_inj (x y r1 r2 : string) :
  no_dash x -> no_dash y ->
  (x +:+ "-" +:+ r1 = y +:+ "-" +:+ r2)%string -> x = y /\ r1 = r2.
Proof.
  revert y. induction x as [| c x' IH]; intros [| d y']; simpl.
  - intros _ _ E. injection E as E. now split.
  - intros _ [Hd _] E. injection E as E _. congruence.
  - intros [Hc _] _ E. injection E as E _. congruence.
  - intros [_ Ha] [_ Hb] E. injection E as Ec E. subst d.
    destruct (IH y' Ha Hb E) as [-> ->]. now split.
Qed.

(** X21. An order number determines the two strings it was made from: when
    the base-36 timestamps hold no "-", two runs of [generateOrderNumber]
    give the same number only if they have the same timestamp string and
    the same random string. *)
Theorem generateOrderNumber_injective (rt1 rt2 : Runtime) :
  no_dash (timestamp36 rt1) -> no_dash (timestamp36 rt2) ->
  generateOrderNumber rt1 = generateOrderNumber rt2 ->
  timestamp36 rt1 = timestamp36 rt2 /\ random36 rt1 = random36 rt2.
Proof.
  intros H1 H2. unfold generateOrderNumber. simpl. intros E.
  injection E as E. exact (append_dash_inj _ _ _ _ H1 H2 E).
Qed.

Lemma generateOrderNumber_injective_witness :
  generateOrderNumber Example.rt = "ORD-LOX5Q2RW-A1B2C"%string /\
  (timestamp36 Example.rt = timestamp36 Example.rt /\
   random36 Example.rt = random36 Example.rt).
Proof.
  split; [reflexivity |].
  apply (generateOrderNumber_injective Example.rt Example.rt); [| | reflexivity];
    cbn; repeat split; discriminate.
Defined.

(** ** Orders through their life *)

(** X22. No controller sets paymentStatus: an order stored with a payment
    that is not completed (a cash-on-delivery order, as [createOrder] makes
    it) is never refundable, however the history of the collection goes on
    and whatever the time. *)
Theorem unpaid_order_never_refundable (db db' : Database) (i : OrderId)
    (o o' : Order) (now : Z) :
  reachable db -> rtc step db db' ->
  orders db !! i = Some o -> paymentStatus o <> PayCompleted ->
  orders db' !! i = Some o' ->
  paymentStatus o' = paymentStatus o /\
  (canBeRefunded now o').1 <> Some true.
Proof.
  intros Hreach Hsteps Ho Hp Ho'.
  destruct (history_keeps_orders db db' i o Hreach Hsteps Ho) as (o2 & Ho2 & Hsame).
  rewrite Ho' in Ho2. injection Ho2 as <-.
  destruct Hsame as (_ & _ & _ & _ & _ & Hpay & _).
  split; [exact Hpay |].
  unfold canBeRefunded, mbind, Method_bind, read.
  destruct (createdAt o'); cbn; [| discriminate].
  intros [= H]. rewrite !andb_true_iff, !bool_decide_eq_true in H. intuition congruence.
Qed.

Lemma unpaid_order_never_refundable_witness :
  exists o o',
    orders Example.db_cod !! 1%positive = Some o /\
    orders Example.db_cod_delivered !! 1%positive = Some o' /\
    paymentStatus o = PayPending /\ orderStatus o' = Delivered /\
    (canBeRefunded 1700000000001 o').1 <> Some true.
Proof.
  eexists _, _. split; [vm_compute; reflexivity |].
  split; [vm_compute; reflexivity |].
  split; [reflexivity |]. split; [reflexivity |].
  refine (proj2 (unpaid_order_never_refundable Example.db_cod
                   Example.db_cod_delivered 1%positive _ _ 1700000000001
                   _ _ _ _ _)).
  - apply (reachable_step Example.db0); [now apply reachable_init |].
    apply step_createOrder.
  - apply rtc_once, step_updateOrderStatus.
  - vm_compute. reflexivity.
  - discriminate.
  - vm_compute. reflexivity.
Defined.

Lemma createOrder_sound_result (rt : Runtime) (req : CreateOrderRequest)
    (db db1 : Database) (st : Z) (orderId : OrderId) (o : Order) :
  createOrder rt req db = (OrderResponse st orderId o, db1) ->
  orders db1 !! orderId = Some o /\ order_sound o /\
  userId o = req_userId req /\ orderStatus o = Confirmed /\
  orders db !! orderId = None.
Proof.
  intros Hrun.
  destruct (createOrder_cases rt req db) as
    [(s & code & E & _) |
     (addr & pm & cart & its & _ & _ & _ & _ & _ & _ & _ & Hv & E)];
    rewrite E in Hrun; [discriminate |].
  injection Hrun as <- <- <- <-. cbn [orders].
  split; [apply lookup_insert_eq |].
  split; [now apply createdOrder_sound |].
  repeat split. apply fresh_order_id.
Qed.

(** X23. An order can always be cancelled by its owner right after it was
    made: after a [createOrder] that succeeds, [cancelOrder] by the same
    user succeeds, and stores the order as cancelled at the current time. *)
Theorem new_order_can_be_cancelled (rt rt' : Runtime) (req : CreateOrderRequest)
    (db db1 : Database) (st : Z) (orderId : OrderId) (o : Order) :
  createOrder rt req db = (OrderResponse st orderId o, db1) ->
  exists o' db2,
    cancelOrder rt' (req_userId req) orderId db1 = (OrderResponse 200 orderId o', db2) /\
    orderStatus o' = Cancelled /\ cancelledAt o' = Some (now rt') /\
    orders db2 !! orderId = Some o'.
Proof.
  intros Hrun.
  destruct (createOrder_sound_result _ _ _ _ _ _ _ Hrun) as (Ho & Hs & Hu & Hst & _).
  eexists _, _. split.
  - apply (cancelOrder_sound_run rt' _ orderId db1 o Ho Hs Hu); rewrite Hst; discriminate.
  - cbn [orders]. rewrite lookup_insert_eq. repeat split.
Qed.

Lemma new_order_can_be_cancelled_witness :
  exists o' db2,
    cancelOrder Example.rt 7%positive 1%positive Example.db1
      = (OrderResponse 200 1%positive o', db2) /\
    orderStatus o' = Cancelled.
Proof.
  destruct (new_order_can_be_cancelled Example.rt Example.rt Example.req
              Example.db0 Example.db1 201 1%positive Example.order1)
    as (o' & db2 & Hrun & Hs & _).
  - vm_compute. reflexivity.
  - exists o', db2. split; [exact Hrun | exact Hs].
Defined.



(** X25. The refusals of [updateOrderStatus]: a status that is missing or is
    not one of the six strings is answered INVALID_STATUS, whether or not
    the order exists; a valid status for an order that does not exist is
    answered ORDER_NOT_FOUND; and whenever the answer is an error, nothing
    has changed. *)
Theorem updateOrderStatus_refusals (rt : Runtime) (orderId : OrderId)
    (s : option string) (db : Database) :
  ((forall str, s = Some str -> str ∉ validStatuses) ->
   updateOrderStatus rt orderId s db = (ErrorResponse 400 INVALID_STATUS, db)) /\
  (forall str, s = Some str -> str ∈ validStatuses ->
   orders db !! orderId = None ->
   updateOrderStatus rt orderId s db = (ErrorResponse 404 ORDER_NOT_FOUND, db)) /\
  (forall st code,
   (updateOrderStatus rt orderId s db).1 = ErrorResponse st code ->
   (updateOrderStatus rt orderId s db).2 = db).
Proof.
  rewrite updateOrderStatus_run. repeat match goal with |- _ /\ _ => split end.
  - intros H. destruct s as [str |]; [| reflexivity]. cbn [mbind option_bind].
    destruct (status_of_string str) eqn:E; [| reflexivity].
    exfalso. apply (H str eq_refl), status_of_string_valid. rewrite E. now eexists.
  - intros str -> Hv Ho. cbn [mbind option_bind].
    apply status_of_string_valid in Hv as [x ->]. now rewrite Ho.
  - intros st code.
    destruct (s ≫= status_of_string); [| reflexivity].
    destruct (orders db !! orderId); [| reflexivity].
    cbn zeta. destruct (validate _); [discriminate | reflexivity].
Qed.

(** X26. [getOrdersByStatus] lists exactly the stored orders that have the
    status, those of every user, each once and newest first; for a string
    that is not one of the six statuses the list is empty. *)
Theorem getOrdersByStatus_spec (status : string) (db : Database) :
  let found := getOrdersByStatus status db in
  (forall x, x ∈ found <->
             orders db !! x.1 = Some x.2 /\
             status_of_string status = Some (orderStatus x.2)) /\
  NoDup found.*1 /\
  StronglySorted newer_first found /\
  (status ∉ validStatuses -> found = []).
Proof.
  cbn zeta. unfold getOrdersByStatus.
  set (l := filter _ (map_to_list (orders db))).
  assert (Hl : forall x, x ∈ l <->
                 orders db !! x.1 = Some x.2 /\
                 status_of_string status = Some (orderStatus x.2)).
  { intros [i o]. unfold l. rewrite list_elem_of_filter, elem_of_map_to_list.
    cbn. tauto. }
  repeat match goal with |- _ /\ _ => split end.
  - intros x. rewrite merge_sort_Permutation. apply Hl.
  - rewrite merge_sort_Permutation.
    apply (sublist_NoDup _ (map_to_list (orders db)).*1).
    + apply NoDup_fst_map_to_list.
    + apply fmap_sublist, sublist_filter.
  - apply StronglySorted_merge_sort; apply _.
  - intros Hv.
    assert (E : l = []).
    { clearbody l. destruct l as [| x l']; [reflexivity |]. exfalso.
      destruct (proj1 (Hl x) (list_elem_of_here _ _)) as [_ Hx].
      apply Hv, status_of_string_valid. rewrite Hx. now eexists. }
    rewrite E. reflexivity.
Qed.
